(** * MoneyTracker: the aggregation and goal-progress logic of the pages

    A shallow embedding of the computations in
    - [src/app/analytics/page.tsx] ([processData]),
    - [src/app/add/page.tsx] ([handleSubmit]),
    - [src/app/page.tsx] (the [Home] dashboard and the settings page),
    followed by the properties the specification states about them.

    Conventions of the embedding.
    - A JavaScript [number] that holds a yen amount, a day count or a time
      value in milliseconds is an integer: it is embedded as [Z].  The
      source adds doubles, one after the other; on integers such a sum is
      the exact one as long as it stays within 2^53 in magnitude.  A
      statement that compares sums taken in different orders says so in a
      hypothesis ([exact_amounts]).
    - A nullable numeric column ([amount], [current_amount]) is an
      [option Z]; the source reads it through [x || 0].
    - A plain object used as a dictionary is the association list of its own
      properties in insertion order, because [Object.entries] exposes that
      order.  What an object written [{}] inherits from [Object.prototype]
      is [Js.inherited]; the dictionary of the category sums, whose keys
      are the labels of the rows, is read through it ([Js.lookup]) and
      written with [Js.assign].
    - A calendar date column (["YYYY-MM-DD"]) is the record [IsoDate].
    - The offset of the browser's time zone from UTC is the parameter
      [tza], in milliseconds: the offset at the instant that is read, and
      in [processData] the same at all the dates of the rows.  Where a
      computation builds local instants of its own ([new Date(y, m, d)])
      the zone is a [Js.Zone], which gives the offset at each of them. *)

From Stdlib Require Import ZArith List String Ascii Bool Lia.
From Stdlib Require Import Permutation Sorted DecimalString.
From Stdlib Require Import QArith Qround Qabs.
Import ListNotations.

Local Open Scope Z_scope.

(** A value of a [date] column, the text ["YYYY-MM-DD"]: a calendar date
    with a four-digit year and a month counted from 1. *)
Record IsoDate : Type := mkDate {
  iso_year : Z;
  iso_month : Z;
  iso_day : Z
}.

(** ** The parts of the language runtime the pages use *)

Module Js.

(** [x || 0] on a nullable number. *)
Definition or0 (x : option Z) : Z :=
  match x with
  | Some v => v
  | None => 0
  end.

(** [Math.ceil(a / b)] for integers [a] and [b <> 0]: the ceiling of the
    exact quotient. *)
Definition ceil_div (a b : Z) : Z := - ((- a) / b).

Section Arrays.
Context {A : Type}.

(** [Array.prototype.sort(cmp)]: the sort is stable, and [cmp a b <= 0]
    keeps [a] before [b].  With a consistent comparator every stable
    sort returns the list that insertion from the right builds. *)
Fixpoint sort_insert (cmp : A -> A -> Z) (x : A) (l : list A) : list A :=
  match l with
  | [] => [x]
  | y :: l' =>
      if cmp x y <=? 0 then x :: y :: l' else y :: sort_insert cmp x l'
  end.

Fixpoint sort (cmp : A -> A -> Z) (l : list A) : list A :=
  match l with
  | [] => []
  | x :: l' => sort_insert cmp x (sort cmp l')
  end.

(** [arr.slice(-n)]: the last [n] elements, or all of them. *)
Definition slice_last (n : nat) (l : list A) : list A :=
  skipn (List.length l - n) l.
End Arrays.

(** *** Objects used as dictionaries *)

Definition Obj (V : Type) : Type := list (string * V).

Section Objects.
Context {V : Type}.

(** [o[k]]; [None] is [undefined]. *)
Fixpoint get (k : string) (o : Obj V) : option V :=
  match o with
  | [] => None
  | (k', v) :: o' => if String.eqb k k' then Some v else get k o'
  end.

(** [o[k] = v]: an existing property keeps its place, a new one is
    added last. *)
Fixpoint set (k : string) (v : V) (o : Obj V) : Obj V :=
  match o with
  | [] => [(k, v)]
  | (k', v') :: o' =>
      if String.eqb k k' then (k', v) :: o' else (k', v') :: set k v o'
  end.
End Objects.

(** *** The dictionary of an object written [{}]

    A property of such a dictionary holds a number, or the text that an
    addition left there. *)

Inductive Value : Type :=
| Num (n : Z)
| Str (s : string).

(** The methods every object inherits from [Object.prototype]. *)
Definition inherited_methods : list string :=
  ["constructor"; "hasOwnProperty"; "isPrototypeOf";
   "propertyIsEnumerable"; "toLocaleString"; "toString"; "valueOf";
   "__defineGetter__"; "__defineSetter__"; "__lookupGetter__";
   "__lookupSetter__"]%string.

(** What [o[k]] finds on the prototype when [o] has no property [k] of
    its own, as the text it becomes in front of a [+]: the prototype
    itself under [__proto__], and under the name of a method the source
    text of a built-in function (the one the V8 engine prints).  [None]
    is [undefined]. *)
Definition inherited (k : string) : option string :=
  if String.eqb k "__proto__" then Some "[object Object]"%string
  else if String.eqb k "constructor"
  then Some "function Object() { [native code] }"%string
  else if existsb (String.eqb k) inherited_methods
  then Some ("function " ++ k ++ "() { [native code] }")%string
  else None.

(** [o[k]]: the object's own property, else the inherited one. *)
Definition lookup (k : string) (o : Obj Value) : option Value :=
  match get k o with
  | Some v => Some v
  | None =>
      match inherited k with
      | Some text => Some (Str text)
      | None => None
      end
  end.

(** [v || 0]: [undefined], the number 0 and the empty text give 0. *)
Definition or_zero (v : option Value) : Value :=
  match v with
  | None => Num 0
  | Some (Str EmptyString) => Num 0
  | Some v' => v'
  end.

(** *** Array indices among the keys

    [Object.entries] lists the keys that are array indices (canonical
    decimal numerals up to 2^32 - 2) first, in ascending numeric order,
    and the other keys after them in insertion order. *)

Definition is_digit (c : ascii) : bool :=
  let n := N_of_ascii c in ((48 <=? n) && (n <=? 57))%N.

Definition digit_val (c : ascii) : Z := Z.of_N (N_of_ascii c) - 48.

Fixpoint all_digits (s : string) : bool :=
  match s with
  | EmptyString => true
  | String c s' => is_digit c && all_digits s'
  end.

Fixpoint decimal_value (acc : Z) (s : string) : Z :=
  match s with
  | EmptyString => acc
  | String c s' => decimal_value (10 * acc + digit_val c) s'
  end.

Definition array_index (s : string) : option Z :=
  match s with
  | EmptyString => None
  | String c s' =>
      if all_digits s
         && (negb (Ascii.eqb c "0"%char) || String.eqb s' EmptyString)
         && (decimal_value 0 s <=? 4294967294)
      then Some (decimal_value 0 s)
      else None
  end.

Definition is_array_index (s : string) : bool :=
  match array_index s with
  | Some _ => true
  | None => false
  end.

Definition index_cmp {V : Type} (a b : string * V) : Z :=
  or0 (array_index (fst a)) - or0 (array_index (fst b)).

Definition entries {V : Type} (o : Obj V) : list (string * V) :=
  sort index_cmp (filter (fun kv => is_array_index (fst kv)) o)
  ++ filter (fun kv => negb (is_array_index (fst kv))) o.

(** *** Strings *)

(** [String(n)] for an integer [n]. *)
Definition Number_toString (n : Z) : string :=
  NilZero.string_of_int (Z.to_int n).

(** [v + n] for a number [n]: the sum of two numbers, and after a text
    the text followed by the digits of [n]. *)
Definition plus (v : Value) (n : Z) : Value :=
  match v with
  | Num a => Num (a + n)
  | Str s => Str (s ++ Number_toString n)
  end.

(** [o[k] = v] on an object written [{}].  The name [__proto__] is an
    accessor of the prototype, and its setter ignores a value that is
    not an object: no property is created.  Every other name becomes, or
    stays, a property of the object itself. *)
Definition assign (k : string) (v : Value) (o : Obj Value) : Obj Value :=
  if String.eqb k "__proto__" then o else set k v o.

(** [b - a]; [None] is NaN, which is what a text that is not a numeral
    gives (the texts of [inherited] start with a letter or a bracket). *)
Definition minus (b a : Value) : option Z :=
  match b, a with
  | Num x, Num y => Some (x - y)
  | _, _ => None
  end.

(** What [sort] makes of the result of its comparator: NaN counts as
    0. *)
Definition nan_is_0 (v : option Z) : Z :=
  match v with
  | Some z => z
  | None => 0
  end.

Fixpoint repeat_char (c : ascii) (n : nat) : string :=
  match n with
  | O => EmptyString
  | S n' => String c (repeat_char c n')
  end.

(** [s.padStart(n, c)] for a one-character filler. *)
Definition padStart (n : nat) (c : ascii) (s : string) : string :=
  (repeat_char c (n - String.length s) ++ s)%string.

(** [s.replace(c, rep)] for a one-character pattern: only the first
    occurrence is replaced. *)
Fixpoint replace_first (c : ascii) (rep : string) (s : string) : string :=
  match s with
  | EmptyString => EmptyString
  | String c' s' =>
      if Ascii.eqb c c' then (rep ++ s')%string
      else String c' (replace_first c rep s')
  end.

(** Whether [/(\d{2})$/] matches: the text ends with two digits. *)
Fixpoint ends_with_two_digits (s : string) : bool :=
  match s with
  | String a (String b EmptyString) => is_digit a && is_digit b
  | String _ s' => ends_with_two_digits s'
  | EmptyString => false
  end.

(** [s.replace(/(\d{2})$/, '$1' + suffix)]. *)
Definition replace_two_digits_at_end (suffix : string) (s : string)
  : string :=
  if ends_with_two_digits s then (s ++ suffix)%string else s.

(** [a.localeCompare(b)].  The collation is the host's; on the texts
    compared here (decimal digits, the hyphen and the two ideographs of
    the month label) it orders as the code units do, which is what the
    embedding takes it to be. *)
Definition localeCompare (a b : string) : Z :=
  match String.compare a b with
  | Lt => -1
  | Eq => 0
  | Gt => 1
  end.

(** *** Dates: time values in milliseconds since the epoch, UTC *)

Definition msPerDay : Z := 1000 * 60 * 60 * 24.

Definition Day (t : Z) : Z := t / msPerDay.

Definition DaysInYear (y : Z) : Z :=
  if negb (y mod 4 =? 0) then 365
  else if negb (y mod 100 =? 0) then 366
  else if negb (y mod 400 =? 0) then 365
  else 366.

Definition DayFromYear (y : Z) : Z :=
  365 * (y - 1970) + (y - 1969) / 4 - (y - 1901) / 100 + (y - 1601) / 400.

Definition InLeapYear_of_year (y : Z) : Z :=
  if DaysInYear y =? 366 then 1 else 0.

(** The year that holds day number [d]: the largest [y] with
    [DayFromYear y <= d], found from an estimate that is off by at most
    one. *)
Definition year_of_day (d : Z) : Z :=
  let y0 := 1970 + (400 * d) / 146097 in
  if d <? DayFromYear y0 then y0 - 1
  else if DayFromYear (y0 + 1) <=? d then y0 + 1
  else y0.

Definition YearFromTime (t : Z) : Z := year_of_day (Day t).

Definition DayWithinYear (t : Z) : Z := Day t - DayFromYear (YearFromTime t).

(** The month of a time value, counted from 0. *)
Definition MonthFromTime (t : Z) : Z :=
  let d := DayWithinYear t in
  let leap := InLeapYear_of_year (YearFromTime t) in
  if d <? 31 then 0
  else if d <? 59 + leap then 1
  else if d <? 90 + leap then 2
  else if d <? 120 + leap then 3
  else if d <? 151 + leap then 4
  else if d <? 181 + leap then 5
  else if d <? 212 + leap then 6
  else if d <? 243 + leap then 7
  else if d <? 273 + leap then 8
  else if d <? 304 + leap then 9
  else if d <? 334 + leap then 10
  else 11.

(** The days of the year before month [m] (counted from 0). *)
Definition days_before_month (leap m : Z) : Z :=
  if m <=? 0 then 0
  else if m =? 1 then 31
  else if m =? 2 then 59 + leap
  else if m =? 3 then 90 + leap
  else if m =? 4 then 120 + leap
  else if m =? 5 then 151 + leap
  else if m =? 6 then 181 + leap
  else if m =? 7 then 212 + leap
  else if m =? 8 then 243 + leap
  else if m =? 9 then 273 + leap
  else if m =? 10 then 304 + leap
  else 334 + leap.

Definition MakeDay (y m dt : Z) : Z :=
  DayFromYear y + days_before_month (InLeapYear_of_year y) m + dt - 1.

(** [new Date("YYYY-MM-DD")]: a date without a time is read as midnight
    UTC of that day. *)
Definition Date_of_iso (d : IsoDate) : Z :=
  MakeDay (iso_year d) (iso_month d - 1) (iso_day d) * msPerDay.

(** [LocalTime]: the time value shifted by the zone's offset [tza]. *)
Definition LocalTime (tza t : Z) : Z := t + tza.

Definition getFullYear (tza t : Z) : Z := YearFromTime (LocalTime tza t).

Definition getMonth (tza t : Z) : Z := MonthFromTime (LocalTime tza t).

(** [d.setHours(0, 0, 0, 0)]: midnight, local time, of the local day of
    [t], as a time value. *)
Definition setHours0 (tza t : Z) : Z :=
  Day (LocalTime tza t) * msPerDay - tza.

(** The day of the month of a time value, counted from 1. *)
Definition DateFromTime (t : Z) : Z :=
  DayWithinYear t
  - days_before_month (InLeapYear_of_year (YearFromTime t)) (MonthFromTime t)
  + 1.

(** [MakeDay] for any month number: twelve months carry into the year, so
    that month -1 is the December before and month 12 the January
    after. *)
Definition MakeDay_carry (y m dt : Z) : Z :=
  MakeDay (y + m / 12) (m mod 12) dt.

(** A time zone: its offset from UTC in milliseconds at an instant given
    as a time value ([offset_at_utc]), and at an instant given in local
    time ([offset_at_local]).  The two differ from instant to instant
    where the zone switches between winter and summer time. *)
Record Zone : Type := mkZone {
  offset_at_utc : Z -> Z;
  offset_at_local : Z -> Z
}.

(** [new Date(y, m, d)]: midnight, local time, of that day, as a time
    value; the offset is the one the zone has at that local midnight.
    A year from 0 to 99 stands for 1900 + year. *)
Definition Date_local (zone : Zone) (y m d : Z) : Z :=
  let t :=
    MakeDay_carry (if (0 <=? y) && (y <=? 99) then 1900 + y else y) m d
    * msPerDay in
  t - offset_at_local zone t.

(** [t.toISOString().split('T')[0]]: the date of a time value in UTC
    (for the years 0 to 9999, which the text writes on four digits). *)
Definition toISODate (t : Z) : IsoDate :=
  mkDate (YearFromTime t) (MonthFromTime t + 1) (DateFromTime t).

End Js.

(** ** The rows of the two tables *)

Inductive TransactionType : Type :=
| income
| expense.

Record Transaction : Type := mkTransaction {
  tx_id : string;
  type : TransactionType;
  amount : option Z;
  category : string;
  memo : option string;
  date : IsoDate
}.

Record Goal : Type := mkGoal {
  id : string;
  target_amount : Z;
  current_amount : option Z;
  target_date : option IsoDate
}.

(** ** [src/app/analytics/page.tsx] *)

Module Analytics.

(** An entry of the category totals.  The page declares [value] a
    number; it is whatever [expenseByCategory] holds under the name. *)
Record CategoryData : Type := mkCategoryData {
  name : string;
  value : Js.Value
}.

(** The first [forEach] of [processData]: the running totals and the
    per-category expense sums, threaded through the loop. *)
Record Totals : Type := mkTotals {
  t_income : Z;
  t_expense : Z;
  expenseByCategory : Js.Obj Js.Value
}.

(** One turn of that loop.  Whatever is not an income counts as an
    expense. *)
Definition totals_step (acc : Totals) (t : Transaction) : Totals :=
  match type t with
  | income =>
      mkTotals (t_income acc + Js.or0 (amount t))
               (t_expense acc)
               (expenseByCategory acc)
  | expense =>
      mkTotals (t_income acc)
               (t_expense acc + Js.or0 (amount t))
               (Js.assign (category t)
                  (Js.plus
                     (Js.or_zero
                        (Js.lookup (category t) (expenseByCategory acc)))
                     (Js.or0 (amount t)))
                  (expenseByCategory acc))
  end.

Definition totals (transactions : list Transaction) : Totals :=
  fold_left totals_step transactions (mkTotals 0 0 []).

(** [categoryArray]: the entries of [expenseByCategory], sorted by
    [(a, b) => b.value - a.value].  Where a value is a text the
    difference is NaN, the comparator is no longer consistent, and the
    order of the entries is the engine's own. *)
Definition categoryArray (transactions : list Transaction)
  : list CategoryData :=
  Js.sort (fun a b => Js.nan_is_0 (Js.minus (value b) (value a)))
    (map (fun kv => mkCategoryData (fst kv) (snd kv))
       (Js.entries (expenseByCategory (totals transactions)))).

(** *** The monthly series *)

(** A value of [monthlyMap]: [{ income, expense }]. *)
Record MonthSums : Type := mkMonthSums {
  sum_income : Z;
  sum_expense : Z
}.

(** An entry of the monthly series, with the keys the chart reads. *)
Record MonthlyData : Type := mkMonthlyData {
  month : string;
  収入 : Z;
  支出 : Z
}.

(** [monthKey]: the local year, a hyphen, the local month from 1 on two
    digits. *)
Definition monthKey (tza : Z) (t : Transaction) : string :=
  let d := Js.Date_of_iso (date t) in
  (Js.Number_toString (Js.getFullYear tza d)
   ++ "-"
   ++ Js.padStart 2 "0" (Js.Number_toString (Js.getMonth tza d + 1)))%string.

(** One turn of the second [forEach]: the month's entry is created with
    zero sums if it is missing, then the amount is added to its income or
    to its expense, in place. *)
Definition monthly_step (tza : Z) (monthlyMap : Js.Obj MonthSums)
  (t : Transaction) : Js.Obj MonthSums :=
  let k := monthKey tza t in
  let m1 :=
    match Js.get k monthlyMap with
    | None => Js.set k (mkMonthSums 0 0) monthlyMap
    | Some _ => monthlyMap
    end in
  match Js.get k m1 with
  | None => m1
  | Some s =>
      match type t with
      | income =>
          Js.set k
            (mkMonthSums (sum_income s + Js.or0 (amount t)) (sum_expense s))
            m1
      | expense =>
          Js.set k
            (mkMonthSums (sum_income s) (sum_expense s + Js.or0 (amount t)))
            m1
      end
  end.

Definition monthlyMap (tza : Z) (transactions : list Transaction)
  : Js.Obj MonthSums :=
  fold_left (monthly_step tza) transactions [].

(** The label shown for a month key: the first hyphen becomes the year
    sign, and the month sign is added after two closing digits. *)
Definition month_label (k : string) : string :=
  Js.replace_two_digits_at_end "月" (Js.replace_first "-" "年" k).

(** [monthlyArray]: the entries of [monthlyMap] under their labels,
    sorted by label, the last six of them. *)
Definition monthlyArray (tza : Z) (transactions : list Transaction)
  : list MonthlyData :=
  Js.slice_last 6
    (Js.sort (fun a b => Js.localeCompare (month a) (month b))
       (map (fun kv =>
               mkMonthlyData (month_label (fst kv))
                 (sum_income (snd kv)) (sum_expense (snd kv)))
          (Js.entries (monthlyMap tza transactions)))).

(** What [processData] sets: the four pieces of state the page draws. *)
Record State : Type := mkState {
  categoryData : list CategoryData;
  totalIncome : Z;
  totalExpense : Z;
  monthlyData : list MonthlyData
}.

Definition processData (tza : Z) (transactions : list Transaction)
  : State :=
  mkState (categoryArray transactions)
    (t_income (totals transactions))
    (t_expense (totals transactions))
    (monthlyArray tza transactions).

End Analytics.

(** ** The data store, as the pages reach it through the Supabase client

    The two tables are lists of rows in storage order.  The store answers
    every request; where a page inspects the [error] of an answer, the
    answer is a parameter of the page's handler. *)

Record Store : Type := mkStore {
  transactions : list Transaction;
  goals : list Goal
}.

Module Supabase.

Inductive Response (A : Type) : Type :=
| Data (data : A)
| Error (code : string).
Arguments Data {A} data.
Arguments Error {A} code.

(** [.limit(1)] *)
Definition limit1 {A : Type} (rows : list A) : list A := firstn 1 rows.

(** [.single()]: exactly one row, or the error [PGRST116]. *)
Definition single {A : Type} (rows : list A) : Response A :=
  match rows with
  | [r] => Data r
  | _ => Error "PGRST116"
  end.

(** The columns of [goals], and a row as [.select(columns)] returns it: a
    column that was not selected is [undefined] on the returned object,
    here [None] (as is a null of a nullable column). *)
Inductive Column : Type :=
| col_id
| col_target_amount
| col_current_amount
| col_target_date.

Definition Column_eqb (a b : Column) : bool :=
  match a, b with
  | col_id, col_id
  | col_target_amount, col_target_amount
  | col_current_amount, col_current_amount
  | col_target_date, col_target_date => true
  | _, _ => false
  end.

Record GoalData : Type := mkGoalData {
  data_id : option string;
  data_target_amount : option Z;
  data_current_amount : option Z;
  data_target_date : option IsoDate
}.

Definition select (columns : list Column) (g : Goal) : GoalData :=
  let has c := existsb (Column_eqb c) columns in
  mkGoalData
    (if has col_id then Some (id g) else None)
    (if has col_target_amount then Some (target_amount g) else None)
    (if has col_current_amount then current_amount g else None)
    (if has col_target_date then target_date g else None).

(** [.eq('id', v)]: the filter is sent as the text of [v], and the text
    of [undefined] is ["undefined"].  (Where [id] is a uuid column the
    store rejects that text and the request changes nothing, which is
    also what this filter does on rows with genuine ids.) *)
Definition eq_id (v : option string) (g : Goal) : bool :=
  String.eqb (id g)
    (match v with
     | Some s => s
     | None => "undefined"%string
     end).

(** The payload of [.update(...)]: [None] for a column it leaves out. *)
Record GoalPatch : Type := mkGoalPatch {
  set_target_amount : option Z;
  set_current_amount : option (option Z);
  set_target_date : option (option IsoDate)
}.

Definition patch (p : GoalPatch) (g : Goal) : Goal :=
  mkGoal (id g)
    (match set_target_amount p with
     | Some v => v
     | None => target_amount g
     end)
    (match set_current_amount p with
     | Some v => v
     | None => current_amount g
     end)
    (match set_target_date p with
     | Some v => v
     | None => target_date g
     end).

(** [.from('goals').update(p)] under a filter. *)
Definition update_goals (p : GoalPatch) (filter : Goal -> bool) (st : Store)
  : Store :=
  mkStore (transactions st)
    (map (fun g => if filter g then patch p g else g) (goals st)).

(** [.from('goals').insert([{ target_amount, current_amount }])
    .select().single()]: the store assigns the row's [id], and the
    columns left out are null. *)
Definition insert_goal (new_id : string) (target current : Z) (st : Store)
  : Store * Goal :=
  let g := mkGoal new_id target (Some current) None in
  (mkStore (transactions st) (goals st ++ [g]), g).

Definition insert_transaction (t : Transaction) (st : Store) : Store :=
  mkStore (transactions st ++ [t]) (goals st).

(** The store compares the values of a [date] column as days: the day
    number of a date. *)
Definition day_of_date (d : IsoDate) : Z :=
  Js.MakeDay (iso_year d) (iso_month d - 1) (iso_day d).

(** [.gte('date', bound)] and [.lte('date', bound)] *)
Definition gte_date (bound : IsoDate) (t : Transaction) : bool :=
  day_of_date bound <=? day_of_date (date t).

Definition lte_date (bound : IsoDate) (t : Transaction) : bool :=
  day_of_date (date t) <=? day_of_date bound.

(** [.eq('type', ty)] *)
Definition eq_type (ty : TransactionType) (t : Transaction) : bool :=
  match ty, type t with
  | income, income
  | expense, expense => true
  | _, _ => false
  end.

(** [.eq('id', id)] on [transactions] *)
Definition eq_tx_id (id : string) (t : Transaction) : bool :=
  String.eqb (tx_id t) id.

(** [.from('transactions').delete()] under a filter. *)
Definition delete_transactions (filter : Transaction -> bool) (st : Store)
  : Store :=
  mkStore (List.filter (fun t => negb (filter t)) (transactions st))
    (goals st).

End Supabase.

(** ** [src/app/analytics/page.tsx]: the fetch *)

Module AnalyticsPage.

Inductive Period : Type :=
| thisMonth
| lastMonth
| all.

(** The rows [fetchAnalytics] asks the store for and hands to
    [processData]; [now] is the time value of [new Date()]. *)
Definition query (period : Period) (zone : Js.Zone) (now : Z) (st : Store)
  : list Transaction :=
  let tza := Js.offset_at_utc zone now in
  match period with
  | thisMonth =>
      let firstDay :=
        Js.Date_local zone (Js.getFullYear tza now) (Js.getMonth tza now)
          1 in
      List.filter (Supabase.gte_date (Js.toISODate firstDay))
        (transactions st)
  | lastMonth =>
      let firstDay :=
        Js.Date_local zone (Js.getFullYear tza now)
          (Js.getMonth tza now - 1) 1 in
      let lastDay :=
        Js.Date_local zone (Js.getFullYear tza now) (Js.getMonth tza now)
          0 in
      List.filter
        (fun t =>
           Supabase.gte_date (Js.toISODate firstDay) t
           && Supabase.lte_date (Js.toISODate lastDay) t)
        (transactions st)
  | all => transactions st
  end.

End AnalyticsPage.

(** ** [src/app/add/page.tsx] *)

Module AddPage.

Record Form : Type := mkForm {
  f_type : TransactionType;
  f_amount : string;
  f_category : string;
  f_memo : string;
  f_date : IsoDate
}.

(** What the handler leaves behind besides the store: the error message
    shown, and whether it navigated back to the dashboard. *)
Record Outcome : Type := mkOutcome {
  error : option string;
  pushed : bool
}.

(** The date the form starts with,
    [new Date().toISOString().split('T')[0]]. *)
Definition initial_date (now : Z) : IsoDate := Js.toISODate now.

Section Handler.
(** [parseFloat], on the amounts the number input yields; [None] is
    NaN. *)
Variable parseFloat : string -> option Z.

(** [handleSubmit].  [new_id] is the id the store gives the inserted
    transaction, [transactionError] the error of the insert, if any. *)
Definition handleSubmit (new_id : string)
  (transactionError : option string) (form : Form) (st : Store)
  : Store * Outcome :=
  if String.eqb (f_amount form) "" || String.eqb (f_category form) ""
  then (st, mkOutcome (Some "金額とカテゴリを入力してください"%string) false)
  else
    match parseFloat (f_amount form) with
    | None => (st, mkOutcome (Some "有効な金額を入力してください"%string) false)
    | Some amountNum =>
        if amountNum <=? 0
        then (st, mkOutcome (Some "有効な金額を入力してください"%string) false)
        else
          match transactionError with
          | Some message =>
              (st, mkOutcome
                     (Some ("保存に失敗しました: " ++ message)%string) false)
          | None =>
              let st1 :=
                Supabase.insert_transaction
                  (mkTransaction new_id (f_type form) (Some amountNum)
                     (f_category form)
                     (if String.eqb (f_memo form) "" then None
                      else Some (f_memo form))
                     (f_date form))
                  st in
              let st2 :=
                match f_type form with
                | income =>
                    match
                      Supabase.single
                        (Supabase.limit1
                           (map (Supabase.select [Supabase.col_current_amount])
                              (goals st1)))
                    with
                    | Supabase.Data goalData =>
                        Supabase.update_goals
                          (Supabase.mkGoalPatch None
                             (Some
                                (Some
                                   (Js.or0
                                      (Supabase.data_current_amount goalData)
                                    + amountNum)))
                             None)
                          (Supabase.eq_id (Supabase.data_id goalData))
                          st1
                    | Supabase.Error _ => st1
                    end
                | expense => st1
                end in
              (st2, mkOutcome None true)
          end
    end.
End Handler.

End AddPage.

(** ** [src/app/page.tsx]: the dashboard *)

Module Home.

Record State : Type := mkState {
  goal : option Goal;
  currentAmount : Z
}.

(** [fetchGoal].  [new_id] is the id the store gives a goal it
    inserts. *)
Definition fetchGoal (new_id : string) (st : Store) (ui : State)
  : Store * State :=
  match Supabase.single (Supabase.limit1 (goals st)) with
  | Supabase.Data data =>
      (st, mkState (Some data) (Js.or0 (current_amount data)))
  | Supabase.Error code =>
      if String.eqb code "PGRST116"
      then
        let '(st', newGoal) := Supabase.insert_goal new_id 1000000 0 st in
        (st', mkState (Some newGoal) 0)
      else (st, ui)
  end.

(** [progress] *)
Definition progress (goal : option Goal) (currentAmount : Z) : Q :=
  match goal with
  | Some g => (inject_Z currentAmount / inject_Z (target_amount g)) * 100
  | None => 0
  end%Q.

(** The bar's width, [Math.min(progress, 100)], in percent. *)
Definition barWidth (progress : Q) : Q :=
  if Qle_bool progress 100 then progress else 100%Q.

(** [x.toFixed(1)]: the nearest tenth of the magnitude, the larger one
    on a tie, behind the sign.  The embedding rounds the exact quotient
    where the source rounds the double nearest to it; the two agree
    unless the quotient lies on a tie that its double misses (as 0.15
    does). *)
Definition toFixed1 (x : Q) : string :=
  let n := Qfloor (Qabs x * 10 + (1 # 2))%Q in
  ((if Qle_bool 0 x then "" else "-")
   ++ Js.Number_toString (n / 10) ++ "." ++ Js.Number_toString (n mod 10))%string.

(** The readout under the bar. *)
Definition readout (progress : Q) : string :=
  (toFixed1 progress ++ "% 達成")%string.

(** [targetDate]: the goal's date as a [Date], if it has one. *)
Definition targetDate (goal : option Goal) : option Z :=
  match goal with
  | Some g =>
      match target_date g with
      | Some d => Some (Js.Date_of_iso d)
      | None => None
      end
  | None => None
  end.

(** [today], after [today.setHours(0, 0, 0, 0)]; [now] is the time value
    of [new Date()]. *)
Definition today (tza now : Z) : Z := Js.setHours0 tza now.

Definition daysRemaining (targetDate : option Z) (today : Z) : option Z :=
  match targetDate with
  | Some t => Some (Js.ceil_div (t - today) Js.msPerDay)
  | None => None
  end.

Definition isOverdue (daysRemaining : option Z) : bool :=
  match daysRemaining with
  | Some d => d <? 0
  | None => false
  end.

(** The result of a division as the page would print it: an integer, or
    what a division by zero leaves (an infinity or NaN). *)
Inductive Quotient : Type :=
| Finite (q : Z)
| NotFinite.

Definition ceil_quotient (a b : Z) : Quotient :=
  if b =? 0 then NotFinite else Finite (Js.ceil_div a b).

(** The amount in the "needed per day" line, when that line is
    rendered. *)
Definition requiredDailyPace (goal : option Goal) (currentAmount : Z)
  (daysRemaining : option Z) : option Quotient :=
  match daysRemaining with
  | Some d =>
      if negb (isOverdue daysRemaining) && (0 <? d)
      then
        Some
          (ceil_quotient
             (match goal with
              | Some g => target_amount g
              | None => 0
              end - currentAmount)
             d)
      else None
  | None => None
  end.

(** Whether the congratulation banner is drawn: [progress >= 100]. *)
Definition goal_reached (progress : Q) : bool := Qle_bool 100 progress.

(** [fetchMonthlySummary]: the income and the expense of the current
    month, as the two queries and their [reduce] give them. *)
Definition fetchMonthlySummary (zone : Js.Zone) (now : Z) (st : Store)
  : Z * Z :=
  let tza := Js.offset_at_utc zone now in
  let firstDay :=
    Js.Date_local zone (Js.getFullYear tza now) (Js.getMonth tza now) 1 in
  let lastDay :=
    Js.Date_local zone (Js.getFullYear tza now)
      (Js.getMonth tza now + 1) 0 in
  let rows ty :=
    List.filter
      (fun t =>
         Supabase.eq_type ty t
         && Supabase.gte_date (Js.toISODate firstDay) t
         && Supabase.lte_date (Js.toISODate lastDay) t)
      (transactions st) in
  let reduce data :=
    fold_left (fun sum t => sum + Js.or0 (amount t)) data 0 in
  (reduce (rows income), reduce (rows expense)).

(** [monthlyBalance] *)
Definition monthlyBalance (summary : Z * Z) : Z :=
  fst summary - snd summary.

(** [deleteTransaction]; [confirmed] is the answer to the confirmation
    dialog.  (The page then fetches everything again.) *)
Definition deleteTransaction (confirmed : bool) (id : string) (st : Store)
  : Store :=
  if negb confirmed then st
  else Supabase.delete_transactions (Supabase.eq_tx_id id) st.

Section RecentTransactions.
(** The [created_at] column, which the store fills in. *)
Variable created_at : Transaction -> Z.

(** [.order('date', { ascending: false })
    .order('created_at', { ascending: false })] as a comparator: the
    later date first, and on one date the later creation first. *)
Definition newest_first (a b : Transaction) : Z :=
  if Supabase.day_of_date (date a) =? Supabase.day_of_date (date b)
  then created_at b - created_at a
  else Supabase.day_of_date (date b) - Supabase.day_of_date (date a).

(** [fetchTransactions]: the first twenty rows in that order. *)
Definition fetchTransactions (st : Store) : list Transaction :=
  firstn 20 (Js.sort newest_first (transactions st)).
End RecentTransactions.

End Home.

(** ** [src/app/page.tsx]: the settings page *)

Module SettingsPage.

Record State : Type := mkState {
  goal : option Goal;
  targetAmount : string;
  targetDate : option IsoDate;
  error : option string;
  success : option string
}.

(** [fetchGoal] *)
Definition fetchGoal (new_id : string) (st : Store) (ui : State)
  : Store * State :=
  match Supabase.single (Supabase.limit1 (goals st)) with
  | Supabase.Data data =>
      (st,
       mkState (Some data) (Js.Number_toString (target_amount data))
         (target_date data) (error ui) (success ui))
  | Supabase.Error code =>
      if String.eqb code "PGRST116"
      then
        let '(st', newGoal) := Supabase.insert_goal new_id 1000000 0 st in
        (st', mkState (Some newGoal) "1000000" None (error ui) (success ui))
      else (st, ui)
  end.

(** Whether [new Date(d)] is a date at all: the ranges of the date
    format. *)
Definition valid_date (d : IsoDate) : bool :=
  (1 <=? iso_month d) && (iso_month d <=? 12)
  && (1 <=? iso_day d) && (iso_day d <=? 31).

Definition fail (ui : State) (message : string) : State :=
  mkState (goal ui) (targetAmount ui) (targetDate ui) (Some message) None.

Section Handler.
Variable parseFloat : string -> option Z.

(** [handleSubmit].  [updateError] is the error of the update, if
    any. *)
Definition handleSubmit (updateError : option string) (st : Store)
  (ui : State) : Store * State :=
  match parseFloat (targetAmount ui) with
  | None => (st, fail ui "有効な目標金額を入力してください")
  | Some amountNum =>
      if amountNum <=? 0
      then (st, fail ui "有効な目標金額を入力してください")
      else
        if match targetDate ui with
           | Some d => negb (valid_date d)
           | None => false
           end
        then (st, fail ui "有効な日付を入力してください")
        else
          match goal ui with
          | None => (st, fail ui "目標データが見つかりません")
          | Some g =>
              let updateData :=
                Supabase.mkGoalPatch (Some amountNum) None
                  (Some (targetDate ui)) in
              match updateError with
              | Some message =>
                  (st, fail ui ("保存に失敗しました: " ++ message))
              | None =>
                  (Supabase.update_goals updateData
                     (Supabase.eq_id (Some (id g))) st,
                   mkState (goal ui) (targetAmount ui) (targetDate ui)
                     None (Some "設定を保存しました！"%string))
              end
          end
  end.
End Handler.

(** [resetCurrentAmount]; [confirmed] is the answer to the confirmation
    dialog. *)
Definition resetCurrentAmount (confirmed : bool) (new_id : string)
  (st : Store) (ui : State) : Store * State :=
  if negb confirmed then (st, ui)
  else
    match goal ui with
    | None => (st, ui)
    | Some g =>
        let st' :=
          Supabase.update_goals
            (Supabase.mkGoalPatch None (Some (Some 0)) None)
            (Supabase.eq_id (Some (id g))) st in
        fetchGoal new_id st'
          (mkState (goal ui) (targetAmount ui) (targetDate ui) (error ui)
             (Some "貯金額をリセットしました"%string))
    end.

End SettingsPage.

(** ** The vocabulary of the statements *)

(** The order a comparator stands for. *)
Definition cmp_le {A : Type} (cmp : A -> A -> Z) (a b : A) : Prop :=
  cmp a b <= 0.

(** The keys of a dictionary, in insertion order. *)
Definition keys {V : Type} (o : Js.Obj V) : list string := map fst o.


(** The amount of a row as a number, a null amount counting for 0. *)
Definition amount_or_zero (t : Transaction) : Z :=
  match amount t with
  | Some a => a
  | None => 0
  end.

(** A sum so far, with the amount of [t] added when [t] is an expense
    whose category is exactly [c]. *)
Definition add_expense_of (c : string) (sum : Z) (t : Transaction) : Z :=
  match type t with
  | expense =>
      if String.eqb (category t) c then sum + amount_or_zero t else sum
  | income => sum
  end.

(** The sum of the amounts of the expense transactions whose category is
    exactly [c], added one after the other in the order of the rows. *)
Definition category_expense_sum (c : string) (l : list Transaction) : Z :=
  fold_left (add_expense_of c) l 0.

(** The sum of a list of numbers. *)
Definition sum_list (l : list Z) : Z := fold_right Z.add 0 l.

(** What a transaction adds to the total expense. *)
Definition expense_amount (t : Transaction) : Z :=
  match type t with
  | expense => amount_or_zero t
  | income => 0
  end.

(** The labels of the expense rows are ordinary ones: none is the name of
    a property that every object inherits. *)
Definition ordinary_categories (l : list Transaction) : Prop :=
  forall t, In t l -> type t = expense -> Js.inherited (category t) = None.

(** The amounts are integers whose magnitudes add up to no more than 2^53:
    whatever the order in which the doubles of the source add some of them,
    every sum on the way is exact. *)
Definition exact_amounts (l : list Transaction) : Prop :=
  sum_list (map (fun t => Z.abs (amount_or_zero t)) l) <= 2 ^ 53.





(** A dictionary of numbers, as a dictionary of values. *)
Definition numbers (o : Js.Obj Z) : Js.Obj Js.Value :=
  map (fun kv => (fst kv, Js.Num (snd kv))) o.

(** The per-category sums as numbers: what one turn of the loop does to
    [expenseByCategory] when the label of the row is an ordinary one. *)
Definition number_sums_step (o : Js.Obj Z) (t : Transaction) : Js.Obj Z :=
  match type t with
  | income => o
  | expense =>
      Js.set (category t)
        (Js.or0 (Js.get (category t) o) + amount_or_zero t) o
  end.

Definition number_sums (l : list Transaction) : Js.Obj Z :=
  fold_left number_sums_step l [].

(** The entry the page makes of a label and its sum. *)
Definition category_entry (kv : string * Z) : Analytics.CategoryData :=
  Analytics.mkCategoryData (fst kv) (Js.Num (snd kv)).

(** The per-category sums, the larger first. *)
Definition sorted_number_sums (l : list Transaction) : list (string * Z) :=
  Js.sort (fun a b => snd b - snd a) (Js.entries (number_sums l)).


(** Two expenses under the label [constructor]. *)
Definition constructor_labelled : list Transaction :=
  [ mkTransaction "c1" expense (Some 100) "constructor" None
      (mkDate 2024 1 5);
    mkTransaction "c2" expense (Some 50) "constructor" None
      (mkDate 2024 1 6) ].


(** The order of texts by code units, as a relation. *)
Definition str_le (a b : string) : Prop := String.compare a b <> Gt.

(** Whether each text of a list is strictly before the next one. *)
Fixpoint increasing (l : list string) : bool :=
  match l with
  | a :: (b :: _) as l' =>
      match String.compare a b with
      | Lt => increasing l'
      | _ => false
      end
  | _ => true
  end.

(** The local year and month (from 0) of a transaction's date. *)
Definition local_ym (tza : Z) (t : Transaction) : Z * Z :=
  (Js.getFullYear tza (Js.Date_of_iso (date t)),
   Js.getMonth tza (Js.Date_of_iso (date t))).

(** The month key and the label of a (year, month) pair, as [processData]
    builds them. *)
Definition ym_key (k : Z * Z) : string :=
  (Js.Number_toString (fst k)
   ++ "-" ++ Js.padStart 2 "0" (Js.Number_toString (snd k + 1)))%string.

Definition ym_label (k : Z * Z) : string := Analytics.month_label (ym_key k).


(** A month of a year that is written with four digits. *)
Definition four_digit_year (k : Z * Z) : Prop := 1000 <= fst k <= 9999.

(** The texts of the years from [y] on, [n] of them. *)
Fixpoint year_texts (n : nat) (y : Z) : list string :=
  match n with
  | O => []
  | S n' => Js.Number_toString y :: year_texts n' (y + 1)
  end.

(** The month from 1, on two digits. *)
Definition month_text (m : Z) : string :=
  Js.padStart 2 "0" (Js.Number_toString (m + 1)).

(** Comparison of (year, month) pairs: year first. *)
Definition ym_compare (a b : Z * Z) : comparison :=
  match fst a ?= fst b with
  | Eq => snd a ?= snd b
  | c => c
  end.






(** A month of a four-digit year that some transaction falls in. *)
Definition month_present (tza : Z) (transactions : list Transaction)
  (k : Z * Z) : Prop :=
  four_digit_year k /\ 0 <= snd k <= 11
  /\ exists t, In t transactions /\ local_ym tza t = k.

(** The whole monthly series, before [slice]. *)
Definition sorted_months (tza : Z) (transactions : list Transaction)
  : list Analytics.MonthlyData :=
  Js.sort
    (fun a b => Js.localeCompare (Analytics.month a) (Analytics.month b))
    (map (fun kv =>
            Analytics.mkMonthlyData (Analytics.month_label (fst kv))
              (Analytics.sum_income (snd kv))
              (Analytics.sum_expense (snd kv)))
       (Js.entries (Analytics.monthlyMap tza transactions))).

(** The transactions of the specification's example. *)
Definition example_transactions : list Transaction :=
  [ mkTransaction "t1" income (Some 1000) "給料" None (mkDate 2024 1 5);
    mkTransaction "t2" expense (Some 300) "food" None (mkDate 2024 1 10);
    mkTransaction "t3" income (Some 500) "給料" None (mkDate 2024 2 1) ].


(** [parseFloat] on the unsigned decimal numerals, the texts the examples
    submit. *)
Definition parse_numeral (s : string) : option Z :=
  match s with
  | EmptyString => None
  | String _ _ => if Js.all_digits s then Some (Js.decimal_value 0 s) else None
  end.

(** A store with a single goal, a quarter of the way to its target, and
    an income of 5000 on the form. *)
Definition example_goal : Goal := mkGoal "goal-1" 1000000 (Some 250000) None.

Definition one_goal : Store := mkStore [] [example_goal].

Definition income_form : AddPage.Form :=
  AddPage.mkForm income "5000" "給料" "" (mkDate 2024 1 5).

(** A goal to be reached on 11 March 2024, and one that was to be reached
    on 25 February 2024. *)
Definition goal_for_march_11 : Goal :=
  mkGoal "goal-1" 1000000 (Some 250000) (Some (mkDate 2024 3 11)).

Definition goal_for_february_25 : Goal :=
  mkGoal "goal-1" 1000000 (Some 250000) (Some (mkDate 2024 2 25)).

(** Three in the morning of 1 March 2024 in Japan (nine hours east), as a
    time value: 18:00 UTC of the day before. *)
Definition march_1_in_japan : Z :=
  Js.MakeDay 2024 1 29 * Js.msPerDay + 18 * 3600000.

(** [goal?.target_amount || 0] *)
Definition target_or_0 (goal : option Goal) : Z :=
  match goal with
  | Some g => target_amount g
  | None => 0
  end.

(** The goal a page inserts when it finds none. *)
Definition default_goal (new_id : string) : Goal :=
  mkGoal new_id 1000000 (Some 0) None.

(** By how many days the date of a local midnight, written in UTC, is off
    the local date: [-1] east of Greenwich, [0] at or west of it. *)
Definition utc_day_shift (tza : Z) : Z := Js.Day (- tza).

(** The shift of a zone at the local midnight that opens day [d]. *)
Definition shift_at (zone : Js.Zone) (d : Z) : Z :=
  utc_day_shift (Js.offset_at_local zone (d * Js.msPerDay)).

(** Whether a transaction is of kind [ty] and dated from day [lo] to day
    [hi]. *)
Definition in_window (ty : TransactionType) (lo hi : Z) (t : Transaction)
  : bool :=
  match ty, type t with
  | income, income
  | expense, expense =>
      (lo <=? Supabase.day_of_date (date t))
      && (Supabase.day_of_date (date t) <=? hi)
  | _, _ => false
  end.

(** The sum of the amounts of the transactions of kind [ty] dated from day
    [lo] to day [hi], added one after the other in the order of the
    rows. *)
Definition window_sum (ty : TransactionType) (lo hi : Z)
  (l : list Transaction) : Z :=
  fold_left
    (fun sum t => if in_window ty lo hi t then sum + amount_or_zero t else sum)
    l 0.

(** A zone that keeps one offset all year. *)
Definition fixed_zone (tza : Z) : Js.Zone :=
  Js.mkZone (fun _ => tza) (fun _ => tza).

(** The zone of London in 2024: one hour ahead of UTC from 31 March, 01:00
    UTC, to 27 October, 01:00 UTC.  A local time that the switch skips is
    read with the offset before the switch, and one that occurs twice as
    the earlier of the two instants. *)
Definition london_2024 : Js.Zone :=
  let summer_from := Js.MakeDay 2024 2 31 * Js.msPerDay + 3600000 in
  let summer_to := Js.MakeDay 2024 9 27 * Js.msPerDay + 3600000 in
  Js.mkZone
    (fun t => if (summer_from <=? t) && (t <? summer_to) then 3600000 else 0)
    (fun t =>
       if (summer_from + 3600000 <=? t) && (t <? summer_to + 3600000)
       then 3600000 else 0).

(** The year [new Date(y, m, d)] reads [y] as. *)
Definition full_year (y : Z) : Z :=
  if (0 <=? y) && (y <=? 99) then 1900 + y else y.

(** Two incomes, of the last day of September and of the last day of
    October 2024. *)
Definition autumn_incomes : Store :=
  mkStore
    [ mkTransaction "a1" income (Some 100) "給料" None (mkDate 2024 9 30);
      mkTransaction "a2" income (Some 7) "給料" None (mkDate 2024 10 31) ]
    [].

(** Noon UTC of 15 October 2024. *)
Definition mid_october_2024 : Z :=
  Js.MakeDay 2024 9 15 * Js.msPerDay + 12 * 3600000.

(** A transaction of 31 March 2024. *)
Definition end_of_march : Transaction :=
  mkTransaction "m1" expense (Some 300) "食費" None (mkDate 2024 3 31).

(** Noon UTC of 15 April 2024. *)
Definition mid_april_2024 : Z :=
  Js.MakeDay 2024 3 15 * Js.msPerDay + 12 * 3600000.

(** What a transaction adds to the total income. *)
Definition income_amount (t : Transaction) : Z :=
  match type t with
  | income => amount_or_zero t
  | expense => 0
  end.

(** The income and the expense of the transactions whose month key is
    [k]. *)
Fixpoint month_income (tza : Z) (k : string) (l : list Transaction) : Z :=
  match l with
  | [] => 0
  | t :: l' =>
      if String.eqb (Analytics.monthKey tza t) k
      then income_amount t + month_income tza k l'
      else month_income tza k l'
  end.

Fixpoint month_expense (tza : Z) (k : string) (l : list Transaction) : Z :=
  match l with
  | [] => 0
  | t :: l' =>
      if String.eqb (Analytics.monthKey tza t) k
      then expense_amount t + month_expense tza k l'
      else month_expense tza k l'
  end.

(** The sums under a key, zero where the key is missing. *)
Definition sums_at (k : string) (m : Js.Obj Analytics.MonthSums)
  : Analytics.MonthSums :=
  match Js.get k m with
  | Some s => s
  | None => Analytics.mkMonthSums 0 0
  end.

(** The income and the expense summed over a whole dictionary of months. *)
Definition all_income (m : Js.Obj Analytics.MonthSums) : Z :=
  sum_list (map (fun kv => Analytics.sum_income (snd kv)) m).

Definition all_expense (m : Js.Obj Analytics.MonthSums) : Z :=
  sum_list (map (fun kv => Analytics.sum_expense (snd kv)) m).


(** [a] is at least as new as [b]: dated later, or dated the same day and
    created no earlier. *)
Definition at_least_as_new (created_at : Transaction -> Z)
  (a b : Transaction) : Prop :=
  Supabase.day_of_date (date b) < Supabase.day_of_date (date a)
  \/ (Supabase.day_of_date (date a) = Supabase.day_of_date (date b)
      /\ created_at b <= created_at a).

(** A category is held as a number, or not held at all: under an ordinary
    label the dictionary of the category sums never holds a text. *)
Definition number_or_absent (k : string) (o : Js.Obj Js.Value) : Prop :=
  Js.get k o = None \/ exists n, Js.get k o = Some (Js.Num n).

(** The number held under a label, 0 when the label is not held. *)
Definition number_at (k : string) (o : Js.Obj Js.Value) : Z :=
  match Js.get k o with
  | Some (Js.Num n) => n
  | _ => 0
  end.

(** The days of year [y] before month [m], with the whole year for
    [m = 12]. *)
Definition year_days_before (y m : Z) : Z :=
  if m =? 12 then Js.DaysInYear y
  else Js.days_before_month (Js.InLeapYear_of_year y) m.

Definition february_first : Transaction :=
  mkTransaction "t3" income (Some 500) "給料" None (mkDate 2024 2 1).

(** What a user can do on the three pages, each with what the page and the
    store contribute to it. *)
Inductive Action : Type :=
| add_submit (new_id : string) (transactionError : option string)
    (form : AddPage.Form)
| settings_submit (updateError : option string) (ui : SettingsPage.State)
| settings_reset (confirmed : bool) (new_id : string)
    (ui : SettingsPage.State)
| settings_fetch (new_id : string) (ui : SettingsPage.State)
| home_fetch (new_id : string) (ui : Home.State)
| home_delete (confirmed : bool) (id : string).

(** The store after an action. *)
Definition act (parseFloat : string -> option Z) (st : Store) (a : Action)
  : Store :=
  match a with
  | add_submit new_id transactionError form =>
      fst (AddPage.handleSubmit parseFloat new_id transactionError form st)
  | settings_submit updateError ui =>
      fst (SettingsPage.handleSubmit parseFloat updateError st ui)
  | settings_reset confirmed new_id ui =>
      fst (SettingsPage.resetCurrentAmount confirmed new_id st ui)
  | settings_fetch new_id ui => fst (SettingsPage.fetchGoal new_id st ui)
  | home_fetch new_id ui => fst (Home.fetchGoal new_id st ui)
  | home_delete confirmed id => Home.deleteTransaction confirmed id st
  end.

(** A goal as it was and as it is: the same id, and the amount saved either
    untouched or reset to 0. *)
Definition kept_or_reset (g g' : Goal) : Prop :=
  id g' = id g
  /\ (current_amount g' = current_amount g \/ current_amount g' = Some 0).



(** ** Facts about dates *)

(** Case analysis on every condition of the goal. *)
Ltac destruct_ifs :=
  repeat match goal with
         | |- context [if ?b then _ else _] => destruct b
         end.

(** The year of a day starts on or before it, and the next year after
    it. *)
Lemma year_of_day_spec (d : Z) :
  Js.DayFromYear (Js.year_of_day d) <= d
  < Js.DayFromYear (Js.year_of_day d + 1).
Proof.
  unfold Js.year_of_day.
  set (y0 := 1970 + 400 * d / 146097).
  destruct (Z.ltb_spec d (Js.DayFromYear y0)) as [H1|H1].
  - unfold Js.DayFromYear in *. subst y0.
    Z.div_mod_to_equations. lia.
  - destruct (Z.leb_spec (Js.DayFromYear (y0 + 1)) d) as [H2|H2].
    + unfold Js.DayFromYear in *. subst y0.
      Z.div_mod_to_equations. lia.
    + lia.
Qed.

Lemma DayFromYear_succ (y : Z) :
  Js.DayFromYear (y + 1) = Js.DayFromYear y + Js.DaysInYear y.
Proof.
  unfold Js.DayFromYear, Js.DaysInYear.
  destruct (Z.eqb_spec (y mod 4) 0); destruct (Z.eqb_spec (y mod 100) 0);
    destruct (Z.eqb_spec (y mod 400) 0); cbn [negb];
    Z.div_mod_to_equations; lia.
Qed.

Lemma DayFromYear_le (y y' : Z) :
  y <= y' -> Js.DayFromYear y <= Js.DayFromYear y'.
Proof.
  intros H. unfold Js.DayFromYear. Z.div_mod_to_equations. lia.
Qed.

Lemma DaysInYear_pos (y : Z) : 365 <= Js.DaysInYear y <= 366.
Proof.
  unfold Js.DaysInYear. destruct_ifs; lia.
Qed.

(** [year_of_day d] is the largest year that starts on or before day [d]. *)
Lemma year_of_day_unique (d y : Z) :
  Js.DayFromYear y <= d < Js.DayFromYear (y + 1) -> Js.year_of_day d = y.
Proof.
  intros H. pose proof (year_of_day_spec d) as Hs.
  set (z := Js.year_of_day d) in *.
  destruct (Z.lt_trichotomy z y) as [Hlt|[E|Hgt]]; [|exact E|].
  - pose proof (DayFromYear_le (z + 1) y ltac:(lia)). lia.
  - pose proof (DayFromYear_le (y + 1) z ltac:(lia)). lia.
Qed.

(** A date read from its text gives back its year and month. *)
Lemma getters_of_iso (y m d : Z) :
  1 <= m <= 12 -> 1 <= d <= 28 ->
  Js.YearFromTime (Js.Date_of_iso (mkDate y m d)) = y
  /\ Js.MonthFromTime (Js.Date_of_iso (mkDate y m d)) = m - 1.
Proof.
  intros Hm Hd.
  assert (HD : Js.Day (Js.Date_of_iso (mkDate y m d))
               = Js.MakeDay y (m - 1) d).
  { unfold Js.Date_of_iso, Js.Day. cbn [iso_year iso_month iso_day].
    apply Z.div_mul. discriminate. }
  assert (Hleap : 0 <= Js.InLeapYear_of_year y <= 1
                  /\ Js.DaysInYear y = 365 + Js.InLeapYear_of_year y).
  { unfold Js.InLeapYear_of_year. pose proof (DaysInYear_pos y).
    destruct (Z.eqb_spec (Js.DaysInYear y) 366); lia. }
  assert (Hy : Js.YearFromTime (Js.Date_of_iso (mkDate y m d)) = y).
  { unfold Js.YearFromTime. rewrite HD. apply year_of_day_unique.
    rewrite DayFromYear_succ. unfold Js.MakeDay, Js.days_before_month.
    destruct_ifs; lia. }
  split; [exact Hy|].
  unfold Js.MonthFromTime, Js.DayWithinYear. rewrite Hy, HD.
  unfold Js.MakeDay, Js.days_before_month.
  repeat match goal with
         | |- context [if ?a <=? ?b then _ else _] => destruct (Z.leb_spec a b)
         | |- context [if ?a =? ?b then _ else _] => destruct (Z.eqb_spec a b)
         end; try lia;
  repeat match goal with
         | |- context [if ?a <? ?b then _ else _] =>
             destruct (Z.ltb_spec a b); try lia
         end.
Qed.

(** ** Facts about the runtime *)

Lemma ceil_div_bounds (a b : Z) :
  0 < b -> (Js.ceil_div a b - 1) * b < a <= Js.ceil_div a b * b.
Proof.
  intros Hb. unfold Js.ceil_div.
  pose proof (Z.div_mod (- a) b ltac:(lia)) as Hdm.
  pose proof (Z.mod_pos_bound (- a) b Hb) as Hm.
  nia.
Qed.

Lemma ceil_div_unique (a b q : Z) :
  0 < b -> (q - 1) * b < a <= q * b -> Js.ceil_div a b = q.
Proof.
  intros Hb Hq. pose proof (ceil_div_bounds a b Hb) as Hc. nia.
Qed.

Section SortFacts.
Context {A : Type}.
Variable cmp : A -> A -> Z.

Lemma sort_insert_perm (x : A) (l : list A) :
  Permutation (Js.sort_insert cmp x l) (x :: l).
Proof.
  induction l as [|y l IH]; simpl.
  - reflexivity.
  - destruct (cmp x y <=? 0).
    + reflexivity.
    + rewrite IH. apply perm_swap.
Qed.

Lemma sort_perm (l : list A) : Permutation (Js.sort cmp l) l.
Proof.
  induction l as [|x l IH]; simpl.
  - reflexivity.
  - rewrite sort_insert_perm. now constructor.
Qed.

Hypothesis cmp_total : forall a b, cmp_le cmp a b \/ cmp_le cmp b a.
Hypothesis cmp_trans :
  forall a b c, cmp_le cmp a b -> cmp_le cmp b c -> cmp_le cmp a c.

Lemma sort_insert_sorted (x : A) (l : list A) :
  StronglySorted (cmp_le cmp) l ->
  StronglySorted (cmp_le cmp) (Js.sort_insert cmp x l).
Proof.
  induction 1 as [|y l Hl IH Hy]; simpl.
  - repeat constructor.
  - destruct (Z.leb_spec (cmp x y) 0) as [Hxy|Hxy].
    + constructor.
      * now constructor.
      * constructor; [exact Hxy|].
        eapply Forall_impl; [|exact Hy].
        intros z Hz. now apply cmp_trans with y.
    + constructor; [exact IH|].
      eapply Permutation_Forall.
      * symmetry. apply sort_insert_perm.
      * constructor; [|exact Hy].
        destruct (cmp_total x y) as [H|H]; [unfold cmp_le in H; lia|exact H].
Qed.

Lemma sort_sorted (l : list A) : StronglySorted (cmp_le cmp) (Js.sort cmp l).
Proof.
  induction l as [|x l IH]; simpl.
  - constructor.
  - now apply sort_insert_sorted.
Qed.
End SortFacts.

Lemma sort_insert_map {A B : Type} (f : A -> B) (cmpA : A -> A -> Z)
  (cmpB : B -> B -> Z) (x : A) (l : list A) :
  (forall a b, cmpB (f a) (f b) = cmpA a b) ->
  Js.sort_insert cmpB (f x) (map f l) = map f (Js.sort_insert cmpA x l).
Proof.
  intros H. induction l as [|y l IH]; simpl.
  - reflexivity.
  - rewrite H. destruct (cmpA x y <=? 0); simpl.
    + reflexivity.
    + now rewrite IH.
Qed.

(** Sorting commutes with a map that respects the comparators. *)
Lemma sort_map {A B : Type} (f : A -> B) (cmpA : A -> A -> Z)
  (cmpB : B -> B -> Z) (l : list A) :
  (forall a b, cmpB (f a) (f b) = cmpA a b) ->
  Js.sort cmpB (map f l) = map f (Js.sort cmpA l).
Proof.
  intros H. induction l as [|x l IH]; simpl.
  - reflexivity.
  - rewrite IH. now apply sort_insert_map.
Qed.


Lemma slice_last_all {A : Type} (n : nat) (l : list A) :
  (List.length l <= n)%nat -> Js.slice_last n l = l.
Proof.
  intros H. unfold Js.slice_last.
  replace (List.length l - n)%nat with 0%nat by lia. reflexivity.
Qed.

(** *** Dictionaries *)

Section ObjFacts.
Context {V : Type}.

Lemma get_None (k : string) (o : Js.Obj V) :
  Js.get k o = None <-> ~ In k (keys o).
Proof.
  induction o as [|[k' v'] o IH]; simpl.
  - tauto.
  - destruct (String.eqb_spec k k') as [->|Hne].
    + split; [discriminate|]. intros H. exfalso. apply H. now left.
    + rewrite IH. split.
      * intros H [E|E]; [congruence|tauto].
      * tauto.
Qed.

Lemma get_set_same (k : string) (v : V) (o : Js.Obj V) :
  Js.get k (Js.set k v o) = Some v.
Proof.
  induction o as [|[k' v'] o IH]; simpl.
  - now rewrite String.eqb_refl.
  - destruct (String.eqb_spec k k') as [->|Hne]; simpl.
    + now rewrite String.eqb_refl.
    + destruct (String.eqb_spec k k'); [contradiction|exact IH].
Qed.

Lemma get_set_other (k k0 : string) (v : V) (o : Js.Obj V) :
  k0 <> k -> Js.get k0 (Js.set k v o) = Js.get k0 o.
Proof.
  intros Hne. induction o as [|[k' v'] o IH]; simpl.
  - destruct (String.eqb_spec k0 k); [contradiction|reflexivity].
  - destruct (String.eqb_spec k k') as [->|Hk]; simpl.
    + destruct (String.eqb_spec k0 k'); [contradiction|reflexivity].
    + now rewrite IH.
Qed.

Lemma keys_set (k : string) (v : V) (o : Js.Obj V) :
  keys (Js.set k v o)
  = match Js.get k o with
    | Some _ => keys o
    | None => keys o ++ [k]
    end.
Proof.
  induction o as [|[k' v'] o IH]; simpl.
  - reflexivity.
  - destruct (String.eqb_spec k k') as [->|Hk]; simpl.
    + reflexivity.
    + rewrite IH. now destruct (Js.get k o).
Qed.

Lemma keys_set_In (k k0 : string) (v : V) (o : Js.Obj V) :
  In k0 (keys (Js.set k v o)) <-> k0 = k \/ In k0 (keys o).
Proof.
  rewrite keys_set. destruct (Js.get k o) eqn:E.
  - split; [tauto|]. intros [->|H]; [|exact H].
    destruct (in_dec string_dec k (keys o)) as [Hin|Hin]; [exact Hin|].
    apply get_None in Hin. congruence.
  - rewrite in_app_iff. simpl. split; intros H; intuition.
Qed.

Lemma keys_set_NoDup (k : string) (v : V) (o : Js.Obj V) :
  NoDup (keys o) -> NoDup (keys (Js.set k v o)).
Proof.
  intros Hnd. rewrite keys_set. destruct (Js.get k o) eqn:E; [exact Hnd|].
  apply get_None in E.
  apply Permutation_NoDup with (k :: keys o).
  - apply Permutation_cons_append.
  - now constructor.
Qed.

Lemma entries_perm (o : Js.Obj V) : Permutation (Js.entries o) o.
Proof.
  unfold Js.entries. rewrite sort_perm.
  induction o as [|kv o IH]; simpl.
  - reflexivity.
  - destruct (Js.is_array_index (fst kv)); simpl.
    + now constructor.
    + rewrite <- Permutation_middle. now constructor.
Qed.

Lemma get_In (k : string) (v : V) (o : Js.Obj V) :
  NoDup (keys o) -> In (k, v) o -> Js.get k o = Some v.
Proof.
  induction o as [|[k' v'] o IH]; simpl; [tauto|].
  intros Hnd [E|Hin].
  - inversion E; subst. now rewrite String.eqb_refl.
  - inversion Hnd as [|? ? Hnotin Hnd']; subst.
    destruct (String.eqb_spec k k') as [->|Hk].
    + exfalso. apply Hnotin. change k' with (fst (k', v)). now apply in_map.
    + now apply IH.
Qed.
End ObjFacts.


Lemma sum_perm (l l' : list Z) :
  Permutation l l' -> fold_right Z.add 0 l = fold_right Z.add 0 l'.
Proof.
  induction 1; simpl; lia.
Qed.

(** ** The category totals *)

Lemma get_numbers (k : string) (o : Js.Obj Z) :
  Js.get k (numbers o) = option_map Js.Num (Js.get k o).
Proof.
  induction o as [|[k' v] o IH]; simpl.
  - reflexivity.
  - destruct (String.eqb k k'); [reflexivity|exact IH].
Qed.

Lemma set_numbers (k : string) (v : Z) (o : Js.Obj Z) :
  Js.set k (Js.Num v) (numbers o) = numbers (Js.set k v o).
Proof.
  induction o as [|[k' v'] o IH]; simpl.
  - reflexivity.
  - destruct (String.eqb k k'); simpl; [reflexivity|now rewrite IH].
Qed.

Lemma filter_numbers (p : string -> bool) (o : Js.Obj Z) :
  filter (fun kv => p (fst kv)) (numbers o)
  = numbers (filter (fun kv => p (fst kv)) o).
Proof.
  induction o as [|[k v] o IH]; simpl.
  - reflexivity.
  - destruct (p k); simpl; now rewrite IH.
Qed.

Lemma entries_numbers (o : Js.Obj Z) :
  Js.entries (numbers o) = numbers (Js.entries o).
Proof.
  unfold Js.entries.
  rewrite (filter_numbers Js.is_array_index).
  rewrite (filter_numbers (fun k => negb (Js.is_array_index k))).
  unfold numbers at 1. rewrite (sort_map _ Js.index_cmp) by reflexivity.
  unfold numbers. now rewrite map_app.
Qed.

(** An ordinary label is not [__proto__]. *)
Lemma ordinary_not_proto (k : string) :
  Js.inherited k = None -> String.eqb k "__proto__" = false.
Proof.
  unfold Js.inherited. now destruct (String.eqb k "__proto__").
Qed.

Section TotalsLoop.
Import Analytics.

(** On an ordinary label the loop keeps a dictionary of numbers. *)
Lemma totals_step_numbers (acc : Totals) (t : Transaction) (o : Js.Obj Z) :
  (type t = expense -> Js.inherited (category t) = None) ->
  expenseByCategory acc = numbers o ->
  expenseByCategory (totals_step acc t) = numbers (number_sums_step o t).
Proof.
  intros Hord Hacc. unfold totals_step, number_sums_step.
  destruct (type t); cbn [expenseByCategory].
  - exact Hacc.
  - specialize (Hord eq_refl). rewrite Hacc.
    unfold Js.assign. rewrite (ordinary_not_proto _ Hord).
    unfold Js.lookup. rewrite get_numbers, Hord.
    rewrite <- set_numbers. f_equal.
    unfold amount_or_zero.
    destruct (Js.get (category t) o); reflexivity.
Qed.

Lemma totals_loop_numbers (l : list Transaction) (acc : Totals)
  (o : Js.Obj Z) :
  ordinary_categories l ->
  expenseByCategory acc = numbers o ->
  expenseByCategory (fold_left totals_step l acc)
  = numbers (fold_left number_sums_step l o).
Proof.
  revert acc o. induction l as [|t l IH]; intros acc o Hord Hacc; simpl.
  - exact Hacc.
  - apply IH.
    + intros t' Hin. apply Hord. now right.
    + apply totals_step_numbers; [|exact Hacc].
      apply Hord. now left.
Qed.

Lemma expenseByCategory_numbers (l : list Transaction) :
  ordinary_categories l ->
  expenseByCategory (totals l) = numbers (number_sums l).
Proof.
  intros Hord. now apply totals_loop_numbers.
Qed.


Lemma number_sums_loop_NoDup (l : list Transaction) (o : Js.Obj Z) :
  NoDup (keys o) -> NoDup (keys (fold_left number_sums_step l o)).
Proof.
  revert o. induction l as [|t l IH]; intros o H; simpl.
  - exact H.
  - apply IH. unfold number_sums_step. destruct (type t).
    + exact H.
    + now apply keys_set_NoDup.
Qed.

Lemma number_sums_loop_get (c : string) (l : list Transaction)
  (o : Js.Obj Z) :
  Js.or0 (Js.get c (fold_left number_sums_step l o))
  = fold_left (add_expense_of c) l (Js.or0 (Js.get c o)).
Proof.
  revert o. induction l as [|t l IH]; intros o; simpl.
  - reflexivity.
  - rewrite IH. f_equal. unfold number_sums_step, add_expense_of.
    destruct (type t).
    + reflexivity.
    + destruct (String.eqb_spec (category t) c) as [->|Hne].
      * now rewrite get_set_same.
      * now rewrite get_set_other by congruence.
Qed.

Lemma number_sums_loop_keys (c : string) (l : list Transaction)
  (o : Js.Obj Z) :
  In c (keys (fold_left number_sums_step l o))
  <-> In c (keys o)
      \/ exists t, In t l /\ type t = expense /\ category t = c.
Proof.
  revert o. induction l as [|t l IH]; intros o; simpl.
  - split; [tauto|]. intros [H|(t & [] & _)]. exact H.
  - rewrite IH. unfold number_sums_step. destruct (type t) eqn:Ety.
    + split.
      * intros [H|(t' & Hin & Hty & Hc)]; [tauto|].
        right. exists t'. tauto.
      * intros [H|(t' & [->|Hin] & Hty & Hc)]; [tauto|congruence|].
        right. exists t'. tauto.
    + rewrite keys_set_In. split.
      * intros [[->|H]|(t' & Hin & Hty & Hc)].
        -- right. exists t. tauto.
        -- tauto.
        -- right. exists t'. tauto.
      * intros [H|(t' & [->|Hin] & Hty & Hc)].
        -- tauto.
        -- left. left. now symmetry.
        -- right. exists t'. tauto.
Qed.
End TotalsLoop.

Lemma StronglySorted_weaken {A : Type} (R R' : A -> A -> Prop) (l : list A) :
  (forall a b, R a b -> R' a b) -> StronglySorted R l -> StronglySorted R' l.
Proof.
  intros HR. induction 1 as [|x l Hl IH Hx]; constructor.
  - exact IH.
  - eapply Forall_impl; [|exact Hx]. intros y. apply HR.
Qed.


(** With ordinary labels the category totals are the per-category sums,
    the larger first. *)
Lemma categoryArray_numbers (l : list Transaction) :
  ordinary_categories l ->
  Analytics.categoryArray l = map category_entry (sorted_number_sums l).
Proof.
  intros Hord. unfold Analytics.categoryArray, sorted_number_sums.
  rewrite (expenseByCategory_numbers l Hord), entries_numbers.
  unfold numbers. rewrite map_map. cbn [fst snd].
  apply (sort_map category_entry). reflexivity.
Qed.

Lemma sorted_number_sums_perm (l : list Transaction) :
  Permutation (sorted_number_sums l) (number_sums l).
Proof.
  unfold sorted_number_sums. rewrite sort_perm. apply entries_perm.
Qed.

Lemma sorted_number_sums_sorted (l : list Transaction) :
  StronglySorted (fun a b => snd a >= snd b) (sorted_number_sums l).
Proof.
  eapply StronglySorted_weaken; [|apply sort_sorted].
  - unfold cmp_le. intros a b H. lia.
  - unfold cmp_le. intros a b. lia.
  - unfold cmp_le. intros a b c. lia.
Qed.


Lemma totals_loop_expense (l : list Transaction) (acc : Analytics.Totals) :
  Analytics.t_expense (fold_left Analytics.totals_step l acc)
  = Analytics.t_expense acc + sum_list (map expense_amount l).
Proof.
  revert acc. induction l as [|t l IH]; intros acc; simpl.
  - lia.
  - rewrite IH. unfold Analytics.totals_step, expense_amount, amount_or_zero.
    destruct (type t); simpl; destruct (amount t); simpl; lia.
Qed.







(** Under the name of an inherited method the amounts are not added but
    written one after the other, behind the text of the method, in the
    order of the rows. *)
Lemma constructor_expenses_join_as_text :
  Analytics.categoryArray constructor_labelled
  = [ Analytics.mkCategoryData "constructor"
        (Js.Str "function Object() { [native code] }10050") ]
  /\ Analytics.categoryArray (rev constructor_labelled)
     = [ Analytics.mkCategoryData "constructor"
           (Js.Str "function Object() { [native code] }50100") ].
Proof. split; reflexivity. Qed.

(** ** The order of texts *)

Lemma ascii_compare_refl (c : ascii) : Ascii.compare c c = Eq.
Proof. unfold Ascii.compare. apply N.compare_refl. Qed.

Lemma ascii_compare_lt_trans (a b c : ascii) :
  Ascii.compare a b = Lt -> Ascii.compare b c = Lt -> Ascii.compare a c = Lt.
Proof.
  unfold Ascii.compare. rewrite !N.compare_lt_iff. lia.
Qed.

Lemma string_compare_refl (s : string) : String.compare s s = Eq.
Proof.
  induction s as [|c s IH]; simpl; [reflexivity|].
  now rewrite ascii_compare_refl.
Qed.

Lemma string_compare_lt_trans (a b c : string) :
  String.compare a b = Lt -> String.compare b c = Lt -> String.compare a c = Lt.
Proof.
  revert b c. induction a as [|x a IH]; intros [|y b] [|z c]; simpl;
    try discriminate; try reflexivity.
  destruct (Ascii.compare x y) eqn:Exy; try discriminate;
    destruct (Ascii.compare y z) eqn:Eyz; try discriminate; intros H1 H2.
  - apply Ascii.compare_eq_iff in Exy, Eyz. subst.
    rewrite ascii_compare_refl. now apply IH with b.
  - apply Ascii.compare_eq_iff in Exy. subst. now rewrite Eyz.
  - apply Ascii.compare_eq_iff in Eyz. subst. now rewrite Exy.
  - now rewrite (ascii_compare_lt_trans x y z).
Qed.

Lemma string_compare_gt_lt (a b : string) :
  String.compare a b = Gt <-> String.compare b a = Lt.
Proof.
  rewrite (String.compare_antisym b a).
  destruct (String.compare a b); simpl; split; congruence.
Qed.

(** Texts that start with parts of equal length compare by those parts
    first. *)
Lemma string_compare_app (a b s t : string) :
  String.length a = String.length b ->
  String.compare (a ++ s) (b ++ t)
  = match String.compare a b with
    | Eq => String.compare s t
    | c => c
    end.
Proof.
  revert b. induction a as [|x a IH]; intros [|y b]; simpl;
    try discriminate; intros H.
  - reflexivity.
  - destruct (Ascii.compare x y); try reflexivity.
    apply IH. congruence.
Qed.

Lemma localeCompare_le (a b : string) :
  Js.localeCompare a b <= 0 <-> str_le a b.
Proof.
  unfold Js.localeCompare, str_le.
  destruct (String.compare a b); split; intros H; try lia; congruence.
Qed.

Lemma str_le_total (a b : string) : str_le a b \/ str_le b a.
Proof.
  unfold str_le. rewrite (String.compare_antisym b a).
  destruct (String.compare a b); simpl; intuition congruence.
Qed.

Lemma str_le_trans (a b c : string) : str_le a b -> str_le b c -> str_le a c.
Proof.
  unfold str_le. intros Hab Hbc Hac.
  apply string_compare_gt_lt in Hac.
  destruct (String.compare a b) eqn:Eab; [| |congruence].
  - apply String.compare_eq_iff in Eab. subst.
    apply string_compare_gt_lt in Hac. congruence.
  - destruct (String.compare b c) eqn:Ebc; [| |congruence].
    + apply String.compare_eq_iff in Ebc. subst.
      apply string_compare_gt_lt in Hac. congruence.
    + pose proof (string_compare_lt_trans _ _ _ Hac Eab) as H.
      apply string_compare_gt_lt in H. congruence.
Qed.

(** ** Lists in increasing order *)

Lemma increasing_sorted (l : list string) :
  increasing l = true ->
  StronglySorted (fun a b => String.compare a b = Lt) l.
Proof.
  intros H. apply Sorted_StronglySorted.
  - intros a b c. apply string_compare_lt_trans.
  - induction l as [|a [|b l] IH].
    + constructor.
    + repeat constructor.
    + simpl in H. destruct (String.compare a b) eqn:E; try discriminate.
      constructor; [now apply IH|]. now constructor.
Qed.

(** ** Month keys and their labels *)

Lemma monthKey_ym (tza : Z) (t : Transaction) :
  Analytics.monthKey tza t = ym_key (local_ym tza t).
Proof.
  unfold Analytics.monthKey, ym_key, local_ym. cbn [fst snd]. reflexivity.
Qed.

Lemma getMonth_range (tza t : Z) : 0 <= Js.getMonth tza t <= 11.
Proof.
  unfold Js.getMonth, Js.MonthFromTime. destruct_ifs; lia.
Qed.

Lemma year_texts_In (n : nat) (y y' : Z) :
  y <= y' < y + Z.of_nat n -> In (Js.Number_toString y') (year_texts n y).
Proof.
  revert y. induction n as [|n IH]; intros y H; [lia|].
  simpl. destruct (Z.eq_dec y y') as [->|Hne]; [now left|].
  right. apply IH. lia.
Qed.

Lemma year_texts_sorted (n : nat) (y y1 y2 : Z) :
  StronglySorted (fun a b => String.compare a b = Lt) (year_texts n y) ->
  y <= y1 -> y1 < y2 -> y2 < y + Z.of_nat n ->
  String.compare (Js.Number_toString y1) (Js.Number_toString y2) = Lt.
Proof.
  revert y. induction n as [|n IH]; intros y Hs H1 H12 H2; [lia|].
  simpl in Hs. inversion Hs as [|? ? Hrest Hall]; subst.
  destruct (Z.eq_dec y y1) as [->|Hne].
  - rewrite Forall_forall in Hall. apply Hall, year_texts_In. lia.
  - apply (IH (y + 1)); [exact Hrest|lia..].
Qed.

Lemma year_texts_checked :
  increasing (year_texts (Z.to_nat 9000) 1000)
  && forallb (fun s => (String.length s =? 4)%nat && Js.all_digits s)
       (year_texts (Z.to_nat 9000) 1000)
  = true.
Proof. vm_compute. reflexivity. Qed.

Lemma year_text_shape (y : Z) :
  1000 <= y <= 9999 ->
  String.length (Js.Number_toString y) = 4%nat
  /\ Js.all_digits (Js.Number_toString y) = true.
Proof.
  intros Hy. pose proof year_texts_checked as H.
  apply andb_prop in H. destruct H as [_ H].
  rewrite forallb_forall in H.
  specialize (H (Js.Number_toString y)
                (year_texts_In (Z.to_nat 9000) 1000 y ltac:(lia))).
  apply andb_prop in H. destruct H as [Hl Hd].
  apply Nat.eqb_eq in Hl. now split.
Qed.

Lemma year_text_lt (y1 y2 : Z) :
  1000 <= y1 -> y1 < y2 -> y2 <= 9999 ->
  String.compare (Js.Number_toString y1) (Js.Number_toString y2) = Lt.
Proof.
  intros H1 H12 H2. pose proof year_texts_checked as H.
  apply andb_prop in H. destruct H as [H _].
  apply increasing_sorted in H.
  apply (year_texts_sorted (Z.to_nat 9000) 1000 y1 y2 H); lia.
Qed.

Lemma year_text_compare (y1 y2 : Z) :
  1000 <= y1 <= 9999 -> 1000 <= y2 <= 9999 ->
  String.compare (Js.Number_toString y1) (Js.Number_toString y2) = (y1 ?= y2).
Proof.
  intros H1 H2. destruct (Z.compare_spec y1 y2) as [->|Hlt|Hgt].
  - apply string_compare_refl.
  - apply year_text_lt; lia.
  - apply string_compare_gt_lt. apply year_text_lt; lia.
Qed.

Lemma month_cases (m : Z) :
  0 <= m <= 11 ->
  m = 0 \/ m = 1 \/ m = 2 \/ m = 3 \/ m = 4 \/ m = 5 \/ m = 6 \/ m = 7
  \/ m = 8 \/ m = 9 \/ m = 10 \/ m = 11.
Proof. lia. Qed.

Lemma month_text_shape (m : Z) :
  0 <= m <= 11 ->
  exists a b, month_text m = String a (String b EmptyString)
              /\ Js.is_digit a = true /\ Js.is_digit b = true.
Proof.
  intros Hm. apply month_cases in Hm.
  repeat (destruct Hm as [->|Hm]); try subst m;
    (eexists; eexists; split; [vm_compute; reflexivity|split; reflexivity]).
Qed.

Lemma month_text_compare (m1 m2 : Z) :
  0 <= m1 <= 11 -> 0 <= m2 <= 11 ->
  String.compare (month_text m1) (month_text m2) = (m1 ?= m2).
Proof.
  intros H1 H2. apply month_cases in H1. apply month_cases in H2.
  repeat (destruct H1 as [->|H1]); try subst m1;
    repeat (destruct H2 as [->|H2]); try subst m2; vm_compute; reflexivity.
Qed.

Lemma digit_not_hyphen (c : ascii) :
  Js.is_digit c = true -> Ascii.eqb "-" c = false.
Proof.
  intros H. destruct (Ascii.eqb_spec "-"%char c) as [<-|Hne]; [|reflexivity].
  discriminate H.
Qed.

Lemma replace_first_after_digits (rep ys r : string) :
  Js.all_digits ys = true ->
  Js.replace_first "-" rep (ys ++ String "-" r) = (ys ++ rep ++ r)%string.
Proof.
  induction ys as [|c ys IH]; intros H.
  - reflexivity.
  - cbn [Js.all_digits] in H. apply andb_prop in H. destruct H as [Hc Hys].
    cbn [String.append Js.replace_first].
    rewrite (digit_not_hyphen c Hc). now rewrite IH.
Qed.

Lemma ends_with_two_digits_cons (c : ascii) (s : string) :
  (2 <= String.length s)%nat ->
  Js.ends_with_two_digits (String c s) = Js.ends_with_two_digits s.
Proof.
  destruct s as [|a [|b s]]; simpl; intros H; try lia; reflexivity.
Qed.

Lemma string_length_app (a b : string) :
  String.length (a ++ b) = (String.length a + String.length b)%nat.
Proof.
  induction a as [|c a IH]; simpl; [reflexivity|now rewrite IH].
Qed.

Lemma ends_with_two_digits_app (x : string) (a b : ascii) :
  Js.is_digit a = true -> Js.is_digit b = true ->
  Js.ends_with_two_digits (x ++ String a (String b EmptyString)) = true.
Proof.
  intros Ha Hb. induction x as [|c x IH].
  - simpl. now rewrite Ha, Hb.
  - change ((String c x ++ String a (String b ""))%string)
      with (String c (x ++ String a (String b ""))).
    rewrite ends_with_two_digits_cons; [exact IH|].
    rewrite string_length_app. simpl. lia.
Qed.

Lemma string_app_assoc (a b c : string) :
  ((a ++ b) ++ c = a ++ (b ++ c))%string.
Proof.
  induction a as [|x a IH]; simpl; [reflexivity|now rewrite IH].
Qed.

(** The label of a month in a four-digit year: year text, year sign, month
    text, month sign. *)
Lemma ym_label_shape (k : Z * Z) :
  four_digit_year k -> 0 <= snd k <= 11 ->
  ym_label k
  = (Js.Number_toString (fst k) ++ "年" ++ month_text (snd k) ++ "月")%string.
Proof.
  intros Hy Hm. unfold ym_label, Analytics.month_label, ym_key.
  fold (month_text (snd k)).
  destruct (year_text_shape (fst k) Hy) as [_ Hd].
  destruct (month_text_shape (snd k) Hm) as (a & b & -> & Ha & Hb).
  change ("-" ++ String a (String b ""))%string
    with (String "-" (String a (String b ""))).
  rewrite replace_first_after_digits by exact Hd.
  unfold Js.replace_two_digits_at_end.
  rewrite <- !string_app_assoc.
  rewrite ends_with_two_digits_app by assumption.
  now rewrite !string_app_assoc.
Qed.

Lemma ym_label_compare (k1 k2 : Z * Z) :
  four_digit_year k1 -> 0 <= snd k1 <= 11 ->
  four_digit_year k2 -> 0 <= snd k2 <= 11 ->
  String.compare (ym_label k1) (ym_label k2) = ym_compare k1 k2.
Proof.
  intros Hy1 Hm1 Hy2 Hm2.
  rewrite !ym_label_shape by assumption.
  destruct (year_text_shape _ Hy1) as [Hl1 _].
  destruct (year_text_shape _ Hy2) as [Hl2 _].
  rewrite string_compare_app by congruence.
  rewrite year_text_compare by assumption.
  unfold ym_compare. destruct (fst k1 ?= fst k2); try reflexivity.
  rewrite (string_compare_app "年" "年") by reflexivity.
  rewrite string_compare_refl.
  destruct (month_text_shape _ Hm1) as (a1 & b1 & E1 & _).
  destruct (month_text_shape _ Hm2) as (a2 & b2 & E2 & _).
  rewrite string_compare_app by (rewrite E1, E2; reflexivity).
  rewrite month_text_compare by assumption.
  destruct (snd k1 ?= snd k2); try reflexivity.
Qed.


Lemma ym_compare_eq (a b : Z * Z) : ym_compare a b = Eq <-> a = b.
Proof.
  unfold ym_compare. destruct a as [y1 m1], b as [y2 m2]. simpl.
  destruct (Z.compare_spec y1 y2).
  - rewrite Z.compare_eq_iff. split; intros H'; [subst; reflexivity|].
    now inversion H'.
  - split; [discriminate|]. intros H'. inversion H'. lia.
  - split; [discriminate|]. intros H'. inversion H'. lia.
Qed.

(** ** The monthly loop *)

Section MonthlyLoop.
Import Analytics.
Variable tza : Z.

Lemma monthly_step_keys (m : Js.Obj MonthSums) (t : Transaction) (k : string) :
  In k (keys (monthly_step tza m t)) <-> k = monthKey tza t \/ In k (keys m).
Proof.
  unfold monthly_step.
  destruct (Js.get (monthKey tza t) m) as [s|] eqn:E.
  - rewrite E. destruct (type t); rewrite keys_set_In; tauto.
  - rewrite get_set_same.
    destruct (type t); rewrite !keys_set_In; tauto.
Qed.

Lemma monthly_step_NoDup (m : Js.Obj MonthSums) (t : Transaction) :
  NoDup (keys m) -> NoDup (keys (monthly_step tza m t)).
Proof.
  intros H. unfold monthly_step.
  destruct (Js.get (monthKey tza t) m) as [s|] eqn:E.
  - rewrite E. destruct (type t); now apply keys_set_NoDup.
  - rewrite get_set_same.
    destruct (type t); now repeat apply keys_set_NoDup.
Qed.

Lemma monthly_loop_keys (l : list Transaction) (m : Js.Obj MonthSums)
  (k : string) :
  In k (keys (fold_left (monthly_step tza) l m))
  <-> In k (keys m) \/ exists t, In t l /\ monthKey tza t = k.
Proof.
  revert m. induction l as [|t l IH]; intros m; simpl.
  - split; [tauto|]. intros [H|(t & [] & _)]. exact H.
  - rewrite IH, monthly_step_keys. split.
    + intros [[->|H]|(t' & Hin & Hk)].
      * right. exists t. tauto.
      * tauto.
      * right. exists t'. tauto.
    + intros [H|(t' & [->|Hin] & Hk)].
      * tauto.
      * left. left. now symmetry.
      * right. exists t'. tauto.
Qed.

Lemma monthly_loop_NoDup (l : list Transaction) (m : Js.Obj MonthSums) :
  NoDup (keys m) -> NoDup (keys (fold_left (monthly_step tza) l m)).
Proof.
  revert m. induction l as [|t l IH]; intros m H; simpl.
  - exact H.
  - apply IH. now apply monthly_step_NoDup.
Qed.
End MonthlyLoop.

(** ** Lists in order *)






Lemma StronglySorted_map_inv {A B : Type} (R : B -> B -> Prop) (f : A -> B)
  (l : list A) :
  StronglySorted (fun a b => R (f a) (f b)) l -> StronglySorted R (map f l).
Proof.
  induction 1 as [|a l Hs IH Hall]; simpl; constructor.
  - exact IH.
  - rewrite Forall_forall in *. intros y Hy.
    apply in_map_iff in Hy. destruct Hy as (x & <- & Hx). now apply Hall.
Qed.

Lemma ym_label_inj (k1 k2 : Z * Z) :
  four_digit_year k1 -> 0 <= snd k1 <= 11 ->
  four_digit_year k2 -> 0 <= snd k2 <= 11 ->
  ym_label k1 = ym_label k2 -> k1 = k2.
Proof.
  intros Hy1 Hm1 Hy2 Hm2 E. apply ym_compare_eq.
  rewrite <- ym_label_compare by assumption.
  rewrite E. apply string_compare_refl.
Qed.

Section LatestSix.
Variable tza : Z.
Variable transactions : list Transaction.
Hypothesis four_digit_years :
  forall t, In t transactions ->
            1000 <= Js.getFullYear tza (Js.Date_of_iso (date t)) <= 9999.

Lemma local_ym_present (t : Transaction) :
  In t transactions -> month_present tza transactions (local_ym tza t).
Proof.
  intros Hin. split; [|split].
  - apply four_digit_years, Hin.
  - apply getMonth_range.
  - now exists t.
Qed.

Lemma monthlyMap_keys (k : string) :
  In k (keys (Analytics.monthlyMap tza transactions))
  <-> exists t, In t transactions /\ ym_key (local_ym tza t) = k.
Proof.
  unfold Analytics.monthlyMap. rewrite monthly_loop_keys. simpl.
  split.
  - intros [[]|(t & Hin & Hk)]. exists t. now rewrite <- monthKey_ym.
  - intros (t & Hin & Hk). right. exists t. now rewrite monthKey_ym.
Qed.

Lemma sorted_months_labels :
  Permutation (map Analytics.month (sorted_months tza transactions))
    (map Analytics.month_label
       (keys (Analytics.monthlyMap tza transactions))).
Proof.
  unfold sorted_months. rewrite sort_perm, map_map. simpl.
  unfold keys. rewrite map_map.
  apply Permutation_map, entries_perm.
Qed.

End LatestSix.


(** ** Time zones east of Greenwich *)

Lemma Day_LocalTime_east (tza d : Z) :
  0 <= tza < Js.msPerDay -> Js.Day (Js.LocalTime tza (d * Js.msPerDay)) = d.
Proof.
  intros H. unfold Js.Day, Js.LocalTime.
  symmetry. apply Z.div_unique with tza; lia.
Qed.

Lemma MonthFromTime_Day (t t' : Z) :
  Js.Day t = Js.Day t' -> Js.MonthFromTime t = Js.MonthFromTime t'.
Proof.
  intros H. unfold Js.MonthFromTime, Js.DayWithinYear, Js.YearFromTime.
  now rewrite H.
Qed.

Lemma monthKey_east (tza : Z) (t : Transaction) :
  0 <= tza < Js.msPerDay -> Analytics.monthKey tza t = Analytics.monthKey 0 t.
Proof.
  intros H. unfold Analytics.monthKey, Js.getFullYear, Js.getMonth.
  assert (E : Js.Day (Js.LocalTime tza (Js.Date_of_iso (date t)))
              = Js.Day (Js.LocalTime 0 (Js.Date_of_iso (date t)))).
  { unfold Js.Date_of_iso. rewrite !Day_LocalTime_east; [reflexivity| |lia].
    unfold Js.msPerDay. lia. }
  rewrite (MonthFromTime_Day _ _ E). unfold Js.YearFromTime. now rewrite E.
Qed.

Lemma monthlyMap_east (tza : Z) (l : list Transaction) :
  0 <= tza < Js.msPerDay ->
  Analytics.monthlyMap tza l = Analytics.monthlyMap 0 l.
Proof.
  intros H. unfold Analytics.monthlyMap.
  generalize (@nil (string * Analytics.MonthSums)).
  induction l as [|t l IH]; intros m; cbn [fold_left].
  - reflexivity.
  - rewrite IH. unfold Analytics.monthly_step.
    rewrite (monthKey_east tza t H). reflexivity.
Qed.

Lemma monthlyArray_east (tza : Z) (l : list Transaction) :
  0 <= tza < Js.msPerDay ->
  Analytics.monthlyArray tza l = Analytics.monthlyArray 0 l.
Proof.
  intros H. unfold Analytics.monthlyArray. now rewrite monthlyMap_east.
Qed.

(** ** The example of the specification *)

(** C2, as stated, fails: in the time zone of Japan (nine hours east) the
    months of the example come out under the labels of the chart, not under
    the keys ["2024-01"] and ["2024-02"]. *)
Lemma example_months_are_not_keys :
  Analytics.monthlyArray (9 * 3600000) example_transactions
  <> [ Analytics.mkMonthlyData "2024-01" 1000 300;
       Analytics.mkMonthlyData "2024-02" 500 0 ].
Proof. vm_compute. discriminate. Qed.

(** C2, amended. In a time zone at or east of Greenwich the example yields
    January with income 1000 and expense 300, then February with income 500
    and expense 0, each month under its label (year, year sign, month on two
    digits, month sign). *)
Theorem example_monthly_series (tza : Z) :
  0 <= tza < Js.msPerDay ->
  Analytics.monthlyArray tza example_transactions
  = [ Analytics.mkMonthlyData "2024年01月" 1000 300;
      Analytics.mkMonthlyData "2024年02月" 500 0 ].
Proof.
  intros H. rewrite monthlyArray_east by exact H. vm_compute. reflexivity.
Qed.

Lemma example_monthly_series_japan :
  0 <= 9 * 3600000 < Js.msPerDay
  /\ Analytics.monthlyArray (9 * 3600000) example_transactions
     = [ Analytics.mkMonthlyData "2024年01月" 1000 300;
         Analytics.mkMonthlyData "2024年02月" 500 0 ].
Proof.
  split.
  - unfold Js.msPerDay. lia.
  - apply (example_monthly_series (9 * 3600000)). unfold Js.msPerDay. lia.
Defined.

(** ** A year of three digits *)


(** ** The goal after an income *)

(** C1 does not hold of the code. An income of 5000 is recorded and the page
    returns to the dashboard, but the goal still holds 250000: the handler
    selects only [current_amount], so the [id] it filters the update by is
    undefined and the update reaches no row. *)
Theorem income_leaves_goal_unchanged :
  AddPage.handleSubmit parse_numeral "tx-1" None income_form one_goal
  = (mkStore
       [mkTransaction "tx-1" income (Some 5000) "給料" None (mkDate 2024 1 5)]
       [mkGoal "goal-1" 1000000 (Some 250000) None],
     AddPage.mkOutcome None true).
Proof. vm_compute. reflexivity. Qed.

Lemma update_goals_no_match (p : Supabase.GoalPatch) (f : Goal -> bool)
  (st : Store) :
  (forall g, In g (goals st) -> f g = false) ->
  goals (Supabase.update_goals p f st) = goals st.
Proof.
  intros H. unfold Supabase.update_goals. simpl.
  induction (goals st) as [|g gs IH]; simpl; [reflexivity|].
  rewrite (H g) by now left. f_equal. apply IH.
  intros g' Hg'. apply H. now right.
Qed.

Lemma single_limit1_map {A B : Type} (f : A -> B) (l : list A) (d : B) :
  Supabase.single (Supabase.limit1 (map f l)) = Supabase.Data d ->
  exists a, In a l /\ d = f a.
Proof.
  destruct l as [|a l]; simpl; [discriminate|].
  intros H. injection H as <-. exists a. split; [now left|reflexivity].
Qed.

(** Whatever is submitted, the goals stay as they were, as long as no goal
    carries the id ["undefined"]. *)
Lemma handleSubmit_goals_unchanged (parseFloat : string -> option Z)
  (new_id : string) (transactionError : option string) (form : AddPage.Form)
  (st : Store) :
  (forall g, In g (goals st) -> id g <> "undefined"%string) ->
  goals (fst (AddPage.handleSubmit parseFloat new_id transactionError form st))
  = goals st.
Proof.
  intros Hid. unfold AddPage.handleSubmit.
  destruct (_ || _); [reflexivity|].
  destruct (parseFloat _) as [amountNum|]; [|reflexivity].
  destruct (amountNum <=? 0); [reflexivity|].
  destruct transactionError; [reflexivity|].
  destruct (AddPage.f_type form); [|reflexivity].
  cbn [fst]. set (st1 := Supabase.insert_transaction _ st).
  change (goals st) with (goals st1) in *.
  destruct (Supabase.single _) as [goalData|code] eqn:E; [|reflexivity].
  apply single_limit1_map in E. destruct E as (g & _ & ->).
  apply update_goals_no_match. intros g' Hg'.
  apply String.eqb_neq. now apply Hid.
Qed.

(** ** The deadline *)

Lemma msPerDay_pos : 0 < Js.msPerDay.
Proof. reflexivity. Qed.

(** C6 holds of the code only at or west of Greenwich.  For every goal
    with a target date and every current instant, [today] is the local
    midnight of the current day and the days remaining are the difference
    from [today] to the target date, in days, rounded up; the goal is
    overdue exactly when that number is negative.  But the target date is
    read as midnight UTC and [today] is a local midnight: for a target date
    [n] calendar days after the local day of [now], the days remaining are
    [n + 1] east of Greenwich, and [n] at or west of it. *)
Theorem deadline_status (tza now : Z) (g : Goal) (d : IsoDate) :
  target_date g = Some d ->
  let today := Home.today tza now in
  let days := Home.daysRemaining (Home.targetDate (Some g)) today in
  let n := Supabase.day_of_date d - Js.Day (Js.LocalTime tza now) in
  (Js.LocalTime tza today mod Js.msPerDay = 0
   /\ today <= now < today + Js.msPerDay)
  /\ (exists k,
        days = Some k
        /\ (k - 1) * Js.msPerDay < Js.Date_of_iso d - today
           <= k * Js.msPerDay
        /\ Home.isOverdue days = (k <? 0))
  /\ (0 < tza < Js.msPerDay -> days = Some (n + 1))
  /\ (- Js.msPerDay < tza <= 0 -> days = Some n).
Proof.
  intros Hd today days n. pose proof msPerDay_pos as Hpos.
  assert (Hdays : days
                  = Some (Js.ceil_div (Js.Date_of_iso d - today)
                            Js.msPerDay)).
  { unfold days, Home.targetDate. now rewrite Hd. }
  assert (Hiso : Js.Date_of_iso d = Supabase.day_of_date d * Js.msPerDay)
    by reflexivity.
  split; [|split; [|split]].
  - unfold today, Home.today, Js.setHours0, Js.LocalTime, Js.Day.
    split.
    + replace (_ - tza + tza) with ((now + tza) / Js.msPerDay * Js.msPerDay)
        by lia.
      apply Z.mod_mul. lia.
    + pose proof (Z.div_mod (now + tza) Js.msPerDay ltac:(lia)) as Hdm.
      pose proof (Z.mod_pos_bound (now + tza) Js.msPerDay Hpos) as Hm.
      lia.
  - exists (Js.ceil_div (Js.Date_of_iso d - today) Js.msPerDay).
    split; [exact Hdays|]. split.
    + now apply ceil_div_bounds.
    + rewrite Hdays. reflexivity.
  - intros Hz. rewrite Hdays. f_equal. apply ceil_div_unique; [exact Hpos|].
    rewrite Hiso. unfold today, Home.today, Js.setHours0, n. lia.
  - intros Hz. rewrite Hdays. f_equal. apply ceil_div_unique; [exact Hpos|].
    rewrite Hiso. unfold today, Home.today, Js.setHours0, n. lia.
Qed.

(** In Japan, on 1 March 2024, the goal dated ten days ahead has 11 days
    remaining, and the goal dated five days back has -4 (and is
    overdue). *)
Lemma deadline_status_in_japan :
  (target_date goal_for_march_11 = Some (mkDate 2024 3 11)
   /\ target_date goal_for_february_25 = Some (mkDate 2024 2 25)
   /\ 0 < 9 * 3600000 < Js.msPerDay)
  /\ Js.toISODate (Js.LocalTime (9 * 3600000) march_1_in_japan)
     = mkDate 2024 3 1
  /\ Home.daysRemaining (Home.targetDate (Some goal_for_march_11))
       (Home.today (9 * 3600000) march_1_in_japan)
     = Some 11
  /\ Home.daysRemaining (Home.targetDate (Some goal_for_february_25))
       (Home.today (9 * 3600000) march_1_in_japan)
     = Some (-4)
  /\ Home.isOverdue (Some 11) = false
  /\ Home.isOverdue (Some (-4)) = true.
Proof.
  assert (Hz : 0 < 9 * 3600000 < Js.msPerDay) by (unfold Js.msPerDay; lia).
  split; [split; [reflexivity|split; [reflexivity|exact Hz]]|].
  split; [reflexivity|]. split; [|split; [|split; reflexivity]].
  - exact (proj1 (proj2 (proj2 (deadline_status (9 * 3600000)
                                  march_1_in_japan goal_for_march_11
                                  (mkDate 2024 3 11) eq_refl))) Hz).
  - exact (proj1 (proj2 (proj2 (deadline_status (9 * 3600000)
                                  march_1_in_japan goal_for_february_25
                                  (mkDate 2024 2 25) eq_refl))) Hz).
Defined.

(** ** The daily pace *)

(** C7. The pace line is rendered only when the days remaining are known and
    positive (so the goal is not overdue); its amount is then the gap to the
    target divided by the days remaining, rounded up, and the division is
    never by zero. With no or no positive days remaining, no pace is
    computed. A target of 1000000 with 400000 saved and 30 days left needs
    20000 a day. *)
Theorem required_daily_pace_guarded (goal : option Goal) (currentAmount : Z)
  (daysRemaining : option Z) :
  (forall p,
      Home.requiredDailyPace goal currentAmount daysRemaining = Some p ->
      exists d q,
        daysRemaining = Some d /\ 0 < d
        /\ Home.isOverdue daysRemaining = false
        /\ p = Home.Finite q
        /\ (q - 1) * d < target_or_0 goal - currentAmount <= q * d)
  /\ (forall d,
        daysRemaining = Some d -> 0 < d ->
        Home.requiredDailyPace goal currentAmount daysRemaining
        = Some (Home.Finite
                  (Js.ceil_div (target_or_0 goal - currentAmount) d)))
  /\ (forall d,
        daysRemaining = Some d -> d <= 0 ->
        Home.requiredDailyPace goal currentAmount daysRemaining = None)
  /\ (daysRemaining = None ->
      Home.requiredDailyPace goal currentAmount daysRemaining = None)
  /\ Home.requiredDailyPace (Some (mkGoal "goal-1" 1000000 (Some 400000) None))
       400000 (Some 30)
     = Some (Home.Finite 20000).
Proof.
  assert (Hpos : forall d, 0 < d ->
            Home.requiredDailyPace goal currentAmount (Some d)
            = Some (Home.Finite
                      (Js.ceil_div (target_or_0 goal - currentAmount) d))).
  { intros d Hd. unfold Home.requiredDailyPace, Home.isOverdue,
      Home.ceil_quotient.
    destruct (Z.ltb_spec d 0); [lia|].
    destruct (Z.ltb_spec 0 d); [|lia].
    destruct (Z.eqb_spec d 0); [lia|]. reflexivity. }
  assert (Hneg : forall d, d <= 0 ->
            Home.requiredDailyPace goal currentAmount (Some d) = None).
  { intros d Hd. unfold Home.requiredDailyPace, Home.isOverdue.
    destruct (Z.ltb_spec 0 d); [lia|]. now rewrite andb_false_r. }
  split; [|split; [|split; [|split]]].
  - intros p Hp. destruct daysRemaining as [d|]; [|discriminate].
    destruct (Z_lt_le_dec 0 d) as [Hd|Hd].
    + rewrite (Hpos d Hd) in Hp. injection Hp as <-.
      exists d, (Js.ceil_div (target_or_0 goal - currentAmount) d).
      repeat split; try apply ceil_div_bounds; try assumption.
      unfold Home.isOverdue. destruct (Z.ltb_spec d 0); [lia|reflexivity].
    + rewrite (Hneg d Hd) in Hp. discriminate.
  - intros d -> Hd. now apply Hpos.
  - intros d -> Hd. now apply Hneg.
  - intros ->. reflexivity.
  - reflexivity.
Qed.

(** ** Progress *)



(** ** Saving the settings *)

Lemma update_goals_frame (p : Supabase.GoalPatch) (f : Goal -> bool)
  (st : Store) :
  Supabase.set_current_amount p = None ->
  map current_amount (goals (Supabase.update_goals p f st))
  = map current_amount (goals st)
  /\ map id (goals (Supabase.update_goals p f st)) = map id (goals st)
  /\ transactions (Supabase.update_goals p f st) = transactions st.
Proof.
  intros Hp. unfold Supabase.update_goals. simpl.
  repeat split; rewrite map_map; apply map_ext; intros g;
    destruct (f g); try reflexivity.
  unfold Supabase.patch. simpl. now rewrite Hp.
Qed.

(** C9. Saving the settings never changes the [current_amount] (or the
    [id]) of any goal, nor any transaction; when the save goes through, the
    goal the page holds gets the submitted target amount and target date
    (or no date), and every other goal stays as it was. *)
Theorem settings_save_keeps_current_amount
  (parseFloat : string -> option Z) (updateError : option string)
  (st : Store) (ui : SettingsPage.State) :
  let st' := fst (SettingsPage.handleSubmit parseFloat updateError st ui) in
  map current_amount (goals st') = map current_amount (goals st)
  /\ map id (goals st') = map id (goals st)
  /\ transactions st' = transactions st
  /\ (forall amountNum g,
        parseFloat (SettingsPage.targetAmount ui) = Some amountNum ->
        0 < amountNum ->
        match SettingsPage.targetDate ui with
        | Some d => SettingsPage.valid_date d = true
        | None => True
        end ->
        SettingsPage.goal ui = Some g ->
        updateError = None ->
        goals st'
        = map (fun r =>
                 if String.eqb (id r) (id g)
                 then mkGoal (id r) amountNum (current_amount r)
                        (SettingsPage.targetDate ui)
                 else r)
            (goals st)).
Proof.
  intros st'. unfold st', SettingsPage.handleSubmit.
  split; [|split; [|split]].
  1-3: destruct (parseFloat _) as [amountNum|]; [|reflexivity];
       destruct (amountNum <=? 0); [reflexivity|];
       destruct (match SettingsPage.targetDate ui with
                 | Some d => negb (SettingsPage.valid_date d)
                 | None => false
                 end); [reflexivity|];
       destruct (SettingsPage.goal ui); [|reflexivity];
       destruct updateError; [reflexivity|];
       cbn [fst]; now apply update_goals_frame.
  intros amountNum g -> Hpos Hdate -> ->.
  destruct (Z.leb_spec amountNum 0); [lia|].
  destruct (SettingsPage.targetDate ui) as [d|]; [rewrite Hdate|]; reflexivity.
Qed.

(** ** The first fetch *)

(** C10. A fetch that finds no goal inserts one goal, with target 1000000
    and nothing saved, and shows it; a fetch that finds a goal inserts
    nothing. On both pages. As long as the dashboard holds no goal, the
    progress it shows is 0. *)
Theorem first_fetch_creates_default_goal (new_id : string)
  (txs : list Transaction) :
  (forall ui,
      Home.fetchGoal new_id (mkStore txs []) ui
      = (mkStore txs [default_goal new_id],
         Home.mkState (Some (default_goal new_id)) 0))
  /\ (forall ui,
        fst (SettingsPage.fetchGoal new_id (mkStore txs []) ui)
        = mkStore txs [default_goal new_id]
        /\ SettingsPage.goal
             (snd (SettingsPage.fetchGoal new_id (mkStore txs []) ui))
           = Some (default_goal new_id))
  /\ (forall g gs ui ui',
        Home.fetchGoal new_id (mkStore txs (g :: gs)) ui
        = (mkStore txs (g :: gs),
           Home.mkState (Some g) (Js.or0 (current_amount g)))
        /\ fst (SettingsPage.fetchGoal new_id (mkStore txs (g :: gs)) ui')
           = mkStore txs (g :: gs))
  /\ (forall currentAmount, Home.progress None currentAmount = 0%Q)
  /\ (forall currentAmount,
        Home.readout (Home.progress None currentAmount)
        = "0.0% 達成"%string).
Proof.
  repeat split.
Qed.

(** ** Further properties *)

Lemma handleSubmit_goals_unchanged_example :
  (forall g, In g (goals one_goal) -> id g <> "undefined"%string)
  /\ goals (fst (AddPage.handleSubmit parse_numeral "tx-1" None income_form
                   one_goal))
     = goals one_goal.
Proof.
  assert (H : forall g, In g (goals one_goal) -> id g <> "undefined"%string).
  { intros g [<-|[]]. discriminate. }
  split.
  - exact H.
  - exact (handleSubmit_goals_unchanged parse_numeral "tx-1" None income_form
             one_goal H).
Defined.

(** West of Greenwich the first of February, read as midnight UTC, is still
    January in local time: the example then has a single month. *)
Lemma example_monthly_series_new_york :
  Analytics.monthlyArray (- 5 * 3600000) example_transactions
  = [ Analytics.mkMonthlyData "2024年01月" 1500 300 ].
Proof. vm_compute. reflexivity. Qed.

(** The reset sets the amount saved to 0, and a second reset changes
    nothing more. *)
Lemma resetCurrentAmount_idempotent (new_id new_id' : string)
  (txs : list Transaction) (g : Goal) (targetAmount : string)
  (targetDate : option IsoDate) (error success : option string) :
  let g0 := mkGoal (id g) (target_amount g) (Some 0) (target_date g) in
  let once :=
    SettingsPage.resetCurrentAmount true new_id (mkStore txs [g])
      (SettingsPage.mkState (Some g) targetAmount targetDate error success) in
  fst once = mkStore txs [g0]
  /\ SettingsPage.goal (snd once) = Some g0
  /\ fst (SettingsPage.resetCurrentAmount true new_id' (fst once) (snd once))
     = mkStore txs [g0].
Proof.
  intros g0 once.
  assert (E : once
              = (mkStore txs [g0],
                 SettingsPage.mkState (Some g0)
                   (Js.Number_toString (target_amount g)) (target_date g)
                   error (Some "貯金額をリセットしました"%string))).
  { unfold once, SettingsPage.resetCurrentAmount, Supabase.update_goals,
      Supabase.eq_id.
    cbn [negb SettingsPage.goal goals transactions map id].
    rewrite String.eqb_refl. reflexivity. }
  rewrite E. cbn [fst snd]. repeat split.
  unfold SettingsPage.resetCurrentAmount, Supabase.update_goals,
    Supabase.eq_id.
  cbn [negb SettingsPage.goal goals transactions map id g0].
  rewrite String.eqb_refl. reflexivity.
Qed.


(** ** The month window of the queries *)

Lemma DayWithinYear_range (t : Z) :
  0 <= Js.DayWithinYear t < 365 + Js.InLeapYear_of_year (Js.YearFromTime t).
Proof.
  unfold Js.DayWithinYear, Js.YearFromTime.
  pose proof (year_of_day_spec (Js.Day t)) as H.
  rewrite DayFromYear_succ in H.
  unfold Js.InLeapYear_of_year.
  pose proof (DaysInYear_pos (Js.year_of_day (Js.Day t))) as Hd.
  destruct (Z.eqb_spec (Js.DaysInYear (Js.year_of_day (Js.Day t))) 366); lia.
Qed.

(** The date of a time value is a date of the calendar. *)
Lemma toISODate_valid (t : Z) :
  1 <= iso_month (Js.toISODate t) <= 12
  /\ 1 <= iso_day (Js.toISODate t) <= 31.
Proof.
  pose proof (DayWithinYear_range t) as H.
  assert (Hl : 0 <= Js.InLeapYear_of_year (Js.YearFromTime t) <= 1).
  { unfold Js.InLeapYear_of_year. destruct (_ =? _); lia. }
  unfold Js.toISODate, Js.DateFromTime, Js.MonthFromTime,
    Js.days_before_month.
  cbn [iso_month iso_day].
  set (d := Js.DayWithinYear t) in *.
  set (leap := Js.InLeapYear_of_year (Js.YearFromTime t)) in *.
  repeat match goal with
         | |- context [if ?a <? ?b then _ else _] =>
             destruct (Z.ltb_spec a b)
         end;
    repeat match goal with
           | |- context [if ?a <=? ?b then _ else _] =>
               destruct (Z.leb_spec a b); try lia
           | |- context [if ?a =? ?b then _ else _] =>
               destruct (Z.eqb_spec a b); try lia
           end.
Qed.

(** Written as a date and read back by the store, a time value gives its
    day. *)
Lemma day_of_toISODate (t : Z) :
  Supabase.day_of_date (Js.toISODate t) = Js.Day t.
Proof.
  unfold Supabase.day_of_date, Js.toISODate, Js.MakeDay, Js.DateFromTime,
    Js.DayWithinYear.
  cbn [iso_year iso_month iso_day].
  replace (Js.MonthFromTime t + 1 - 1) with (Js.MonthFromTime t) by lia.
  lia.
Qed.

Lemma Day_add_days (d r : Z) :
  Js.Day (d * Js.msPerDay + r) = d + Js.Day r.
Proof.
  unfold Js.Day. rewrite (Z.add_comm d), Z.add_comm.
  apply Z.div_add. discriminate.
Qed.

(** The date a local midnight is written as: its day, moved by the shift
    the zone has at that midnight. *)
Lemma day_of_Date_local (zone : Js.Zone) (y m d : Z) :
  Supabase.day_of_date (Js.toISODate (Js.Date_local zone y m d))
  = Js.MakeDay_carry (full_year y) m d
    + shift_at zone (Js.MakeDay_carry (full_year y) m d).
Proof.
  rewrite day_of_toISODate. unfold Js.Date_local, shift_at, utc_day_shift.
  fold (full_year y). cbv zeta.
  set (D := Js.MakeDay_carry (full_year y) m d).
  replace (D * Js.msPerDay - Js.offset_at_local zone (D * Js.msPerDay))
    with (D * Js.msPerDay + - Js.offset_at_local zone (D * Js.msPerDay))
    by lia.
  apply Day_add_days.
Qed.

Lemma utc_day_shift_cases (tza : Z) :
  (0 < tza <= Js.msPerDay -> utc_day_shift tza = -1)
  /\ (- Js.msPerDay < tza <= 0 -> utc_day_shift tza = 0).
Proof.
  unfold utc_day_shift, Js.Day. pose proof msPerDay_pos as Hpos.
  split; intros H; symmetry.
  - apply Z.div_unique with (Js.msPerDay - tza); lia.
  - apply Z.div_unique with (- tza); lia.
Qed.

Lemma MakeDay_carry_next_day (y m d : Z) :
  Js.MakeDay_carry y m (d + 1) = Js.MakeDay_carry y m d + 1.
Proof. unfold Js.MakeDay_carry, Js.MakeDay. lia. Qed.

Lemma reduce_filter_window (ty : TransactionType) (lo hi : Z)
  (f : Transaction -> bool) (l : list Transaction) (a : Z) :
  (forall t, f t = in_window ty lo hi t) ->
  fold_left (fun sum t => sum + Js.or0 (amount t)) (filter f l) a
  = fold_left
      (fun sum t =>
         if in_window ty lo hi t then sum + amount_or_zero t else sum)
      l a.
Proof.
  intros Hf. revert a. induction l as [|t l IH]; intros a; simpl.
  - reflexivity.
  - rewrite <- Hf. destruct (f t); simpl; now rewrite IH.
Qed.

Lemma eq_type_window (ty : TransactionType) (lo hi : Z) (t : Transaction) :
  Supabase.eq_type ty t
  && (lo <=? Supabase.day_of_date (date t))
  && (Supabase.day_of_date (date t) <=? hi)
  = in_window ty lo hi t.
Proof.
  unfold Supabase.eq_type, in_window. now destruct ty, (type t).
Qed.

(** The first and the last day of the local month of a time value enclose
    its local day. *)
Lemma local_day_in_month (tza now : Z) :
  let y := Js.getFullYear tza now in
  let m := Js.getMonth tza now in
  Js.MakeDay_carry y m 1 <= Js.Day (Js.LocalTime tza now)
  <= Js.MakeDay_carry y (m + 1) 0.
Proof.
  intros y m. subst y m. unfold Js.getFullYear, Js.getMonth.
  set (t := Js.LocalTime tza now).
  pose proof (DayWithinYear_range t) as H.
  assert (Hl : 0 <= Js.InLeapYear_of_year (Js.YearFromTime t) <= 1
               /\ Js.DaysInYear (Js.YearFromTime t)
                  = 365 + Js.InLeapYear_of_year (Js.YearFromTime t)).
  { unfold Js.InLeapYear_of_year.
    pose proof (DaysInYear_pos (Js.YearFromTime t)).
    destruct (Z.eqb_spec (Js.DaysInYear (Js.YearFromTime t)) 366); lia. }
  assert (Hday : Js.Day t = Js.DayFromYear (Js.YearFromTime t)
                            + Js.DayWithinYear t).
  { unfold Js.DayWithinYear. lia. }
  rewrite Hday. clear Hday.
  pose proof (DayFromYear_succ (Js.YearFromTime t)) as Hnext.
  unfold Js.MonthFromTime.
  set (d := Js.DayWithinYear t) in *.
  set (leap := Js.InLeapYear_of_year (Js.YearFromTime t)) in *.
  set (y := Js.YearFromTime t) in *.
  repeat match goal with
         | |- context [if ?a <? ?b then _ else _] =>
             destruct (Z.ltb_spec a b)
         end;
    unfold Js.MakeDay_carry;
    repeat match goal with
           | |- context [?a / 12] =>
               let q := eval vm_compute in (a / 12) in
               change (a / 12) with q
           | |- context [?a mod 12] =>
               let q := eval vm_compute in (a mod 12) in
               change (a mod 12) with q
           end;
    rewrite ?Z.add_0_r, ?Hnext; fold leap;
    unfold Js.MakeDay, Js.days_before_month;
    repeat match goal with
           | |- context [if ?a <=? ?b then _ else _] =>
               destruct (Z.leb_spec a b); try lia
           | |- context [if ?a =? ?b then _ else _] =>
               destruct (Z.eqb_spec a b); try lia
           end.
Qed.

(** The dashboard's income and expense of the month are the sums over the
    transactions dated from the first to the last day of the local month,
    each bound moved by the shift the zone has at that bound's local
    midnight: a bound at which the zone is east of Greenwich is one day
    early.  (Years 0 to 99 apart, that month is the local month of
    [now].) *)
Theorem monthly_summary_window (zone : Js.Zone) (now : Z) (st : Store) :
  let tza := Js.offset_at_utc zone now in
  let y := full_year (Js.getFullYear tza now) in
  let first := Js.MakeDay_carry y (Js.getMonth tza now) 1 in
  let last := Js.MakeDay_carry y (Js.getMonth tza now + 1) 0 in
  let lo := first + shift_at zone first in
  let hi := last + shift_at zone last in
  Home.fetchMonthlySummary zone now st
  = (window_sum income lo hi (transactions st),
     window_sum expense lo hi (transactions st))
  /\ (forall d, 0 < Js.offset_at_local zone (d * Js.msPerDay) <= Js.msPerDay ->
                shift_at zone d = -1)
  /\ (forall d, - Js.msPerDay < Js.offset_at_local zone (d * Js.msPerDay) <= 0 ->
                shift_at zone d = 0)
  /\ (Js.getFullYear tza now < 0 \/ 99 < Js.getFullYear tza now ->
      first <= Js.Day (Js.LocalTime tza now) <= last).
Proof.
  intros tza y first last lo hi. split; [|split; [|split]].
  - unfold Home.fetchMonthlySummary, window_sum. fold tza. cbv zeta. f_equal.
    + apply reduce_filter_window.
      intros t. unfold Supabase.gte_date, Supabase.lte_date.
      rewrite !day_of_Date_local. apply eq_type_window.
    + apply reduce_filter_window.
      intros t. unfold Supabase.gte_date, Supabase.lte_date.
      rewrite !day_of_Date_local. apply eq_type_window.
  - intros d. apply utc_day_shift_cases.
  - intros d. apply utc_day_shift_cases.
  - intros Hy. unfold first, last, y, full_year.
    replace ((0 <=? Js.getFullYear tza now) && (Js.getFullYear tza now <=? 99))
      with false.
    + apply local_day_in_month.
    + symmetry. apply andb_false_iff. rewrite Z.leb_gt, Z.leb_gt. lia.
Qed.

(** In London, in October 2024, the month begins in summer time and ends in
    winter time: the window runs from 30 September to 31 October, and both
    incomes count. *)
Lemma monthly_summary_window_london :
  Home.fetchMonthlySummary london_2024 mid_october_2024 autumn_incomes
  = (107, 0).
Proof. vm_compute. reflexivity. Qed.

(** The analytics page asks for the transactions from the first day of the
    local month on ("this month"), or from the first day of the month
    before up to the day before the first of this month ("last month"),
    each bound read in UTC and so moved by the shift the zone has at that
    bound's local midnight; or for all of them.  Where the zone has the
    same shift on the first of the month and on the day before, the two
    windows meet without gap or overlap. *)
Theorem analytics_windows (zone : Js.Zone) (now : Z) (st : Store)
  (t : Transaction) :
  let tza := Js.offset_at_utc zone now in
  let y := full_year (Js.getFullYear tza now) in
  let m := Js.getMonth tza now in
  let first := Js.MakeDay_carry y m 1 in
  let before := Js.MakeDay_carry y (m - 1) 1 in
  let day := Supabase.day_of_date (date t) in
  let this := AnalyticsPage.query AnalyticsPage.thisMonth zone now st in
  let last := AnalyticsPage.query AnalyticsPage.lastMonth zone now st in
  (In t this
   <-> In t (transactions st) /\ first + shift_at zone first <= day)
  /\ (In t last
      <-> In t (transactions st)
          /\ before + shift_at zone before <= day
             <= first - 1 + shift_at zone (first - 1))
  /\ AnalyticsPage.query AnalyticsPage.all zone now st = transactions st
  /\ (shift_at zone (first - 1) = shift_at zone first ->
      ~ (In t last /\ In t this)
      /\ (In t last \/ In t this
          <-> In t (transactions st)
              /\ (before + shift_at zone before <= day
                  \/ first + shift_at zone first <= day))).
Proof.
  intros tza y m first before day this last.
  assert (Hthis :
            In t this
            <-> In t (transactions st) /\ first + shift_at zone first <= day).
  { unfold this, AnalyticsPage.query. fold tza. cbv zeta. rewrite filter_In.
    unfold Supabase.gte_date. rewrite day_of_Date_local, Z.leb_le.
    reflexivity. }
  assert (Hlast :
            In t last
            <-> In t (transactions st)
                /\ before + shift_at zone before <= day
                   <= first - 1 + shift_at zone (first - 1)).
  { unfold last, AnalyticsPage.query. fold tza. cbv zeta. rewrite filter_In.
    unfold Supabase.gte_date, Supabase.lte_date.
    rewrite !day_of_Date_local, andb_true_iff, !Z.leb_le.
    fold y m day before.
    replace (Js.MakeDay_carry y m 0) with (first - 1).
    - tauto.
    - unfold first. pose proof (MakeDay_carry_next_day y m 0) as Hnext.
      change (0 + 1) with 1 in Hnext. lia. }
  split; [exact Hthis|]. split; [exact Hlast|]. split; [reflexivity|].
  intros Hshift. rewrite Hthis, Hlast, Hshift.
  clear Hthis Hlast Hshift. clearbody first before day.
  generalize (shift_at zone first) (shift_at zone before). intros s1 s0.
  split; [lia|].
  split.
  - intros [H|H]; split; try tauto; lia.
  - intros [Hin [H|H]].
    + destruct (Z.le_gt_cases (first + s1) day).
      * right. tauto.
      * left. split; [exact Hin|]. lia.
    + right. tauto.
Qed.

(** In London, in April 2024, summer time begins on the last day of the
    month before: a transaction of that day is in both windows. *)
Lemma analytics_windows_london :
  In end_of_march
    (AnalyticsPage.query AnalyticsPage.lastMonth london_2024 mid_april_2024
       (mkStore [end_of_march] []))
  /\ In end_of_march
       (AnalyticsPage.query AnalyticsPage.thisMonth london_2024
          mid_april_2024 (mkStore [end_of_march] [])).
Proof. vm_compute. split; left; reflexivity. Qed.

(** ** The sums of the monthly series *)

Section MonthlySums.
Import Analytics.
Variable tza : Z.

Lemma monthly_step_sums (m : Js.Obj MonthSums) (t : Transaction) (k : string) :
sums_at k (monthly_step tza m t)
= if String.eqb (monthKey tza t) k
  then mkMonthSums (sum_income (sums_at k m) + income_amount t)
         (sum_expense (sums_at k m) + expense_amount t)
  else sums_at k m.
Proof.
unfold monthly_step, sums_at, income_amount, expense_amount.
destruct (String.eqb_spec (monthKey tza t) k) as [<-|Hne].
- destruct (Js.get (monthKey tza t) m) as [s|] eqn:E.
  + rewrite E. destruct (type t); rewrite get_set_same; f_equal; lia.
  + rewrite get_set_same.
    destruct (type t); rewrite get_set_same; cbn; f_equal.
- destruct (Js.get (monthKey tza t) m) as [s|] eqn:E.
  + rewrite E. destruct (type t); now rewrite get_set_other by congruence.
  + rewrite get_set_same.
    destruct (type t); now rewrite !get_set_other by congruence.
Qed.

Lemma monthly_loop_sums (l : list Transaction) (m : Js.Obj MonthSums)
(k : string) :
sum_income (sums_at k (fold_left (monthly_step tza) l m))
= sum_income (sums_at k m) + month_income tza k l
/\ sum_expense (sums_at k (fold_left (monthly_step tza) l m))
   = sum_expense (sums_at k m) + month_expense tza k l.
Proof.
revert m. induction l as [|t l IH]; intros m; cbn [fold_left].
- cbn. lia.
- destruct (IH (monthly_step tza m t)) as [Hi He].
  rewrite Hi, He, monthly_step_sums.
  cbn [month_income month_expense].
  destruct (String.eqb (monthKey tza t) k); cbn; lia.
Qed.
End MonthlySums.





(** ** Totals and months add up *)

Lemma sum_by_set {V : Type} (f : V -> Z) (k : string) (v : V) (o : Js.Obj V) :
  sum_list (map (fun kv => f (snd kv)) (Js.set k v o))
  = sum_list (map (fun kv => f (snd kv)) o)
    - match Js.get k o with
      | Some x => f x
      | None => 0
      end
    + f v.
Proof.
  unfold sum_list. induction o as [|[k' v'] o IH]; simpl.
  - lia.
  - destruct (String.eqb_spec k k') as [->|Hk]; simpl; [lia|].
    rewrite IH. lia.
Qed.

Lemma monthly_step_all (tza : Z) (m : Js.Obj Analytics.MonthSums)
  (t : Transaction) :
  all_income (Analytics.monthly_step tza m t) = all_income m + income_amount t
  /\ all_expense (Analytics.monthly_step tza m t)
     = all_expense m + expense_amount t.
Proof.
  unfold all_income, all_expense, Analytics.monthly_step, income_amount,
    expense_amount, amount_or_zero, Js.or0.
  destruct (Js.get (Analytics.monthKey tza t) m) as [s|] eqn:E.
  - rewrite E. destruct (type t); rewrite !sum_by_set, E; cbn; lia.
  - rewrite get_set_same.
    destruct (type t); rewrite !sum_by_set, get_set_same, E; cbn; lia.
Qed.

Lemma monthly_loop_all (tza : Z) (l : list Transaction)
  (m : Js.Obj Analytics.MonthSums) :
  all_income (fold_left (Analytics.monthly_step tza) l m)
  = all_income m + sum_list (map income_amount l)
  /\ all_expense (fold_left (Analytics.monthly_step tza) l m)
     = all_expense m + sum_list (map expense_amount l).
Proof.
  revert m. induction l as [|t l IH]; intros m; cbn [fold_left map].
  - unfold sum_list. cbn. lia.
  - destruct (IH (Analytics.monthly_step tza m t)) as [Hi He].
    destruct (monthly_step_all tza m t) as [Hi' He'].
    rewrite Hi, He, Hi', He'. unfold sum_list. cbn. lia.
Qed.

Lemma totals_loop_income (l : list Transaction) (acc : Analytics.Totals) :
  Analytics.t_income (fold_left Analytics.totals_step l acc)
  = Analytics.t_income acc + sum_list (map income_amount l).
Proof.
  revert acc. induction l as [|t l IH]; intros acc; simpl.
  - lia.
  - rewrite IH. unfold Analytics.totals_step, income_amount, amount_or_zero.
    destruct (type t); simpl; destruct (amount t); simpl; lia.
Qed.

(** When the transactions fall in at most six months, and their amounts
    are integers that the doubles of the source add exactly, the incomes of
    the monthly series add up to the total income and its expenses to the
    total expense: nothing is lost between the two views. *)
Theorem months_add_up_to_totals (tza : Z) (transactions : list Transaction)
  (months : list string) :
  (List.length months <= 6)%nat ->
  (forall t, In t transactions -> In (Analytics.monthKey tza t) months) ->
  exact_amounts transactions ->
  let s := Analytics.processData tza transactions in
  sum_list (map Analytics.収入 (Analytics.monthlyData s))
  = Analytics.totalIncome s
  /\ sum_list (map Analytics.支出 (Analytics.monthlyData s))
     = Analytics.totalExpense s.
Proof.
  intros Hlen Hcover _ s.
  cbn [s Analytics.processData Analytics.monthlyData Analytics.totalIncome
         Analytics.totalExpense].
  set (M := Analytics.monthlyMap tza transactions).
  assert (HM : (List.length M <= 6)%nat).
  { rewrite <- (length_map fst). fold (keys M).
    etransitivity; [|exact Hlen].
    apply NoDup_incl_length.
    - apply monthly_loop_NoDup. constructor.
    - intros k Hk. apply monthly_loop_keys in Hk.
      destruct Hk as [[]|(t & Hin & <-)]. now apply Hcover. }
  unfold Analytics.monthlyArray. fold M.
  rewrite slice_last_all.
  2:{ erewrite Permutation_length; [|apply sort_perm].
      rewrite length_map.
      erewrite Permutation_length; [exact HM|apply entries_perm]. }
  destruct (monthly_loop_all tza transactions []) as [Hi He].
  fold (Analytics.monthlyMap tza transactions) in Hi, He. fold M in Hi, He.
  unfold Analytics.totals. rewrite totals_loop_income, totals_loop_expense.
  cbn [Analytics.t_income Analytics.t_expense].
  change (all_income []) with 0 in Hi. change (all_expense []) with 0 in He.
  rewrite <- Hi, <- He.
  unfold all_income, all_expense, sum_list.
  split; apply sum_perm.
  - rewrite (Permutation_map _ (sort_perm _ _)), map_map. cbn.
    apply Permutation_map, entries_perm.
  - rewrite (Permutation_map _ (sort_perm _ _)), map_map. cbn.
    apply Permutation_map, entries_perm.
Qed.

Lemma months_add_up_to_totals_example :
  ((List.length ["2024-01"; "2024-02"]%string <= 6)%nat
   /\ (forall t, In t example_transactions ->
                 In (Analytics.monthKey 0 t) ["2024-01"; "2024-02"]%string)
   /\ exact_amounts example_transactions)
  /\ sum_list
       (map Analytics.収入
          (Analytics.monthlyData
             (Analytics.processData 0 example_transactions)))
     = Analytics.totalIncome (Analytics.processData 0 example_transactions).
Proof.
  assert (Hl : (List.length ["2024-01"; "2024-02"]%string <= 6)%nat)
    by (cbn; lia).
  assert (Hc : forall t, In t example_transactions ->
                         In (Analytics.monthKey 0 t)
                           ["2024-01"; "2024-02"]%string).
  { intros t [<-|[<-|[<-|[]]]]; vm_compute; tauto. }
  assert (Hx : exact_amounts example_transactions).
  { unfold exact_amounts. vm_compute. discriminate. }
  split; [split; [exact Hl|split; [exact Hc|exact Hx]]|].
  exact (proj1 (months_add_up_to_totals 0 example_transactions
                  ["2024-01"; "2024-02"]%string Hl Hc Hx)).
Defined.

(** ** What a submission of the add form leaves behind *)

(** The add form either shows an error, stores nothing and stays, or stores
    exactly one transaction, with the submitted kind, date and category (not
    empty) and a positive amount, and goes back to the dashboard. *)
Theorem add_submission_outcome (parseFloat : string -> option Z)
  (new_id : string) (transactionError : option string) (form : AddPage.Form)
  (st : Store) :
  let r := AddPage.handleSubmit parseFloat new_id transactionError form st in
  (AddPage.error (snd r) <> None ->
   fst r = st /\ AddPage.pushed (snd r) = false)
  /\ (AddPage.error (snd r) = None ->
      AddPage.pushed (snd r) = true
      /\ transactionError = None
      /\ AddPage.f_category form <> ""%string
      /\ exists a,
          parseFloat (AddPage.f_amount form) = Some a
          /\ 0 < a
          /\ transactions (fst r)
             = transactions st
               ++ [mkTransaction new_id (AddPage.f_type form) (Some a)
                     (AddPage.f_category form)
                     (if String.eqb (AddPage.f_memo form) "" then None
                      else Some (AddPage.f_memo form))
                     (AddPage.f_date form)]).
Proof.
  intros r. subst r. unfold AddPage.handleSubmit.
  destruct (String.eqb_spec (AddPage.f_amount form) "") as [Ea|Ea];
    [cbn; split; [tauto|discriminate]|].
  destruct (String.eqb_spec (AddPage.f_category form) "") as [Ec|Ec];
    [cbn; split; [tauto|discriminate]|].
  cbn [orb].
  destruct (parseFloat (AddPage.f_amount form)) as [a|];
    [|cbn; split; [tauto|discriminate]].
  destruct (Z.leb_spec a 0) as [Ha|Ha]; [cbn; split; [tauto|discriminate]|].
  destruct transactionError as [msg|]; [cbn; split; [tauto|discriminate]|].
  cbn [fst snd AddPage.error AddPage.pushed].
  split; [intros H; now contradiction H|]. intros _.
  repeat split; [exact Ec|].
  exists a. repeat split; [exact Ha|].
  destruct (AddPage.f_type form); [|reflexivity].
  destruct (Supabase.single _); reflexivity.
Qed.

(** ** What a save of the settings leaves behind *)

(** The settings are saved exactly when the amount reads as a positive
    number, the date (if any) is a date, the page holds a goal and the store
    reports no error; then a success message shows. In every other case an
    error shows and the store is left as it was. *)
Theorem settings_save_outcome (parseFloat : string -> option Z)
  (updateError : option string) (st : Store) (ui : SettingsPage.State) :
  let r := SettingsPage.handleSubmit parseFloat updateError st ui in
  (SettingsPage.error (snd r) = None
   <-> (exists a g,
         parseFloat (SettingsPage.targetAmount ui) = Some a /\ 0 < a
         /\ SettingsPage.goal ui = Some g)
       /\ match SettingsPage.targetDate ui with
          | Some d => SettingsPage.valid_date d = true
          | None => True
          end
       /\ updateError = None)
  /\ (SettingsPage.error (snd r) <> None ->
      fst r = st /\ SettingsPage.success (snd r) = None)
  /\ (SettingsPage.error (snd r) = None ->
      SettingsPage.success (snd r) <> None).
Proof.
  intros r. subst r. unfold SettingsPage.handleSubmit.
  destruct (parseFloat (SettingsPage.targetAmount ui)) as [a|].
  2:{ cbn. repeat split; try discriminate; try tauto.
      intros ((a & g & H & _) & _). discriminate. }
  destruct (Z.leb_spec a 0) as [Ha|Ha].
  { cbn. repeat split; try discriminate; try tauto.
    intros ((a' & g & H & Hpos & _) & _). injection H as <-. lia. }
  destruct (SettingsPage.targetDate ui) as [d|].
  - destruct (SettingsPage.valid_date d) eqn:Ed; cbn [negb].
    2:{ cbn. repeat split; try discriminate; try tauto.
        intros (_ & H & _). discriminate. }
    destruct (SettingsPage.goal ui) as [g|].
    2:{ cbn. repeat split; try discriminate; try tauto.
        intros ((a' & g & _ & _ & H) & _). discriminate. }
    destruct updateError as [msg|].
    + cbn. repeat split; try discriminate; try tauto.
      intros (_ & _ & H). discriminate.
    + cbn. repeat split; try discriminate; try tauto.
      exists a, g. tauto.
  - destruct (SettingsPage.goal ui) as [g|].
    2:{ cbn. repeat split; try discriminate; try tauto.
        intros ((a' & g & _ & _ & H) & _). discriminate. }
    destruct updateError as [msg|].
    + cbn. repeat split; try discriminate; try tauto.
      intros (_ & _ & H). discriminate.
    + cbn. repeat split; try discriminate; try tauto.
      exists a, g. tauto.
Qed.

(** ** Opening the settings and saving them unchanged *)

Lemma patch_same (g : Goal) :
  Supabase.patch
    (Supabase.mkGoalPatch (Some (target_amount g)) None (Some (target_date g)))
    g
  = g.
Proof. destruct g. reflexivity. Qed.

Lemma update_only_first (p : Supabase.GoalPatch) (g : Goal) (gs : list Goal) :
  NoDup (map id (g :: gs)) ->
  Supabase.patch p g = g ->
  map (fun r => if Supabase.eq_id (Some (id g)) r then Supabase.patch p r
                else r)
    (g :: gs)
  = g :: gs.
Proof.
  intros Hnd Hp. cbn [map]. unfold Supabase.eq_id at 1.
  rewrite String.eqb_refl, Hp. f_equal.
  inversion Hnd as [|? ? Hnotin _]; subst.
  rewrite <- (map_id gs) at 2. apply map_ext_in. intros r Hr.
  unfold Supabase.eq_id.
  destruct (String.eqb_spec (id r) (id g)) as [E|_]; [|reflexivity].
  exfalso. apply Hnotin. rewrite <- E. now apply in_map.
Qed.

(** When the stored goals have distinct ids, the first has a positive target
    and a date that is a date (or none), and the target's text reads back
    as the target, then fetching the goal into the settings form and saving
    the form as it is leaves the store exactly as it was. *)
Theorem settings_fetch_then_save (parseFloat : string -> option Z)
  (new_id : string) (st : Store) (ui : SettingsPage.State) (g : Goal)
  (gs : list Goal) :
  goals st = g :: gs ->
  NoDup (map id (goals st)) ->
  0 < target_amount g ->
  match target_date g with
  | Some d => SettingsPage.valid_date d = true
  | None => True
  end ->
  parseFloat (Js.Number_toString (target_amount g)) = Some (target_amount g) ->
  let fetched := SettingsPage.fetchGoal new_id st ui in
  fst fetched = st
  /\ fst (SettingsPage.handleSubmit parseFloat None (fst fetched)
            (snd fetched))
     = st.
Proof.
  intros Hg Hnd Hpos Hdate Hparse fetched.
  assert (E : fetched
              = (st, SettingsPage.mkState (Some g)
                       (Js.Number_toString (target_amount g))
                       (target_date g) (SettingsPage.error ui)
                       (SettingsPage.success ui))).
  { unfold fetched, SettingsPage.fetchGoal. rewrite Hg. reflexivity. }
  rewrite E. cbn [fst snd]. split; [reflexivity|].
  unfold SettingsPage.handleSubmit.
  cbn [SettingsPage.targetAmount SettingsPage.targetDate SettingsPage.goal].
  rewrite Hparse.
  destruct (Z.leb_spec (target_amount g) 0) as [H|_]; [lia|].
  assert (Hd : match target_date g with
               | Some d => negb (SettingsPage.valid_date d)
               | None => false
               end = false).
  { destruct (target_date g); [now rewrite Hdate|reflexivity]. }
  rewrite Hd. cbn [fst]. unfold Supabase.update_goals.
  rewrite Hg in *. rewrite update_only_first; [|exact Hnd|apply patch_same].
  destruct st. cbn in *. now subst.
Qed.

Lemma settings_fetch_then_save_example :
  (goals one_goal = example_goal :: []
   /\ NoDup (map id (goals one_goal))
   /\ 0 < target_amount example_goal
   /\ parse_numeral (Js.Number_toString (target_amount example_goal))
      = Some (target_amount example_goal))
  /\ fst (SettingsPage.handleSubmit parse_numeral None
            (fst (SettingsPage.fetchGoal "new" one_goal
                    (SettingsPage.mkState None "" None None None)))
            (snd (SettingsPage.fetchGoal "new" one_goal
                    (SettingsPage.mkState None "" None None None))))
     = one_goal.
Proof.
  assert (Hnd : NoDup (map id (goals one_goal))).
  { repeat constructor. intros []. }
  assert (Hp : parse_numeral (Js.Number_toString (target_amount example_goal))
               = Some (target_amount example_goal)).
  { vm_compute. reflexivity. }
  split.
  { split; [reflexivity|]. split; [exact Hnd|]. split; [reflexivity|exact Hp]. }
  exact (proj2 (settings_fetch_then_save parse_numeral "new" one_goal
                  (SettingsPage.mkState None "" None None None)
                  example_goal [] eq_refl Hnd eq_refl I Hp)).
Defined.

(** ** Deleting a transaction *)

(** A confirmed deletion removes the transactions with the given id and no
    other, a declined one removes nothing; neither touches a goal, so the
    amount saved stays as it is even when an income is deleted. Deleting
    again changes nothing more. *)
Theorem delete_transaction_effect (confirmed : bool) (id0 : string)
  (st : Store) :
  let st' := Home.deleteTransaction confirmed id0 st in
  goals st' = goals st
  /\ (forall t, In t (transactions st')
                <-> In t (transactions st)
                    /\ (confirmed = false \/ tx_id t <> id0))
  /\ Home.deleteTransaction confirmed id0 st' = st'
  /\ (List.length (transactions st') <= List.length (transactions st))%nat.
Proof.
  intros st'. subst st'. unfold Home.deleteTransaction.
  destruct confirmed; cbn [negb].
  - unfold Supabase.delete_transactions, Supabase.eq_tx_id.
    cbn [goals transactions]. split; [reflexivity|]. split; [|split].
    + intros t. rewrite filter_In, negb_true_iff. split.
      * intros [Hin Hne]. apply String.eqb_neq in Hne. tauto.
      * intros [Hin [H|Hne]]; [discriminate|].
        apply String.eqb_neq in Hne. tauto.
    + f_equal. apply forallb_filter_id. apply forallb_forall.
      intros t Ht. apply filter_In in Ht. tauto.
    + apply filter_length_le.
  - split; [reflexivity|]. split; [|split].
    + intros t. tauto.
    + reflexivity.
    + lia.
Qed.

(** ** The congratulation banner *)

Lemma progress_ge_100 (g : Goal) (currentAmount : Z) :
  0 < target_amount g ->
  (100 <= Home.progress (Some g) currentAmount)%Q
  <-> target_amount g <= currentAmount.
Proof.
  intros Hpos. unfold Home.progress, Qle, Qdiv, Qmult, Qinv, inject_Z.
  destruct (target_amount g) as [|p|p]; try lia.
  cbn [Qnum Qden]. rewrite !Pos.mul_1_l, !Z.mul_1_r.
  cbn [Z.mul]. lia.
Qed.

(** With a positive target, the banner shows and the bar is full exactly
    when the amount saved has reached the target. *)
Theorem banner_iff_target_reached (g : Goal) (currentAmount : Z) :
  0 < target_amount g ->
  (Home.goal_reached (Home.progress (Some g) currentAmount) = true
   <-> target_amount g <= currentAmount)
  /\ ((Home.barWidth (Home.progress (Some g) currentAmount) == 100)%Q
      <-> target_amount g <= currentAmount).
Proof.
  intros Hpos. pose proof (progress_ge_100 g currentAmount Hpos) as H.
  split.
  - unfold Home.goal_reached. now rewrite Qle_bool_iff.
  - unfold Home.barWidth.
    destruct (Qle_bool (Home.progress (Some g) currentAmount) 100) eqn:E.
    + apply Qle_bool_iff in E. rewrite <- H. split; intros H'.
      * rewrite H'. apply Qle_refl.
      * now apply Qle_antisym.
    + rewrite <- H. split; intros _; [|reflexivity].
      destruct (Qlt_le_dec 100 (Home.progress (Some g) currentAmount))
        as [Hlt|Hle]; [now apply Qlt_le_weak|].
      apply Qle_bool_iff in Hle. congruence.
Qed.

Lemma banner_iff_target_reached_example :
  0 < target_amount example_goal
  /\ (Home.goal_reached (Home.progress (Some example_goal) 1000000) = true
      <-> target_amount example_goal <= 1000000).
Proof.
  split.
  - reflexivity.
  - exact (proj1 (banner_iff_target_reached example_goal 1000000 eq_refl)).
Defined.

(** ** The recent transactions *)

Lemma newest_first_le (created_at : Transaction -> Z) (a b : Transaction) :
  cmp_le (Home.newest_first created_at) a b
  <-> at_least_as_new created_at a b.
Proof.
  unfold cmp_le, Home.newest_first, at_least_as_new.
  destruct (Z.eqb_spec (Supabase.day_of_date (date a))
              (Supabase.day_of_date (date b))); lia.
Qed.

(** The dashboard lists at most twenty transactions, twenty if there are as
    many; they are the head of an arrangement of all transactions from the
    newest to the oldest, by date and then by creation. *)
Theorem recent_transactions_newest (created_at : Transaction -> Z)
  (st : Store) :
  let out := Home.fetchTransactions created_at st in
  List.length out = Nat.min 20 (List.length (transactions st))
  /\ exists rest,
      Permutation (out ++ rest) (transactions st)
      /\ StronglySorted (at_least_as_new created_at) (out ++ rest).
Proof.
  intros out. subst out. unfold Home.fetchTransactions.
  set (sorted := Js.sort (Home.newest_first created_at) (transactions st)).
  split.
  - rewrite length_firstn. unfold sorted.
    now rewrite (Permutation_length (sort_perm _ _)).
  - exists (skipn 20 sorted). rewrite firstn_skipn. split.
    + apply sort_perm.
    + eapply StronglySorted_weaken; [|apply sort_sorted].
      * intros a b. apply newest_first_le.
      * intros a b. rewrite !newest_first_le. unfold at_least_as_new. lia.
      * intros a b c. rewrite !newest_first_le. unfold at_least_as_new. lia.
Qed.

(** ** The date the add form starts with *)

(** The add form starts with the date of [now] in UTC. East of Greenwich
    that is the local date, except during the first hours of the local day
    (as many as the zone is ahead), when it is the date of the day
    before. *)
Theorem initial_date_is_utc_date (tza now : Z) :
  0 <= tza < Js.msPerDay ->
  let local := Js.LocalTime tza now in
  Supabase.day_of_date (AddPage.initial_date now) = Js.Day now
  /\ (local mod Js.msPerDay < tza ->
      Supabase.day_of_date (AddPage.initial_date now) = Js.Day local - 1)
  /\ (tza <= local mod Js.msPerDay ->
      Supabase.day_of_date (AddPage.initial_date now) = Js.Day local).
Proof.
  intros Htza local. unfold AddPage.initial_date. rewrite day_of_toISODate.
  pose proof msPerDay_pos as Hpos.
  subst local. unfold Js.LocalTime, Js.Day.
  pose proof (Z.div_mod (now + tza) Js.msPerDay ltac:(lia)) as Hl.
  pose proof (Z.mod_pos_bound (now + tza) Js.msPerDay Hpos) as Hlb.
  split; [reflexivity|]. split; intros H.
  - symmetry.
    apply Z.div_unique with ((now + tza) mod Js.msPerDay + Js.msPerDay - tza);
      lia.
  - symmetry.
    apply Z.div_unique with ((now + tza) mod Js.msPerDay - tza); lia.
Qed.

Lemma initial_date_is_utc_date_example :
  0 <= 9 * 3600000 < Js.msPerDay
  /\ Supabase.day_of_date
       (AddPage.initial_date (Js.Date_of_iso (mkDate 2024 2 29)))
     = Js.Day (Js.Date_of_iso (mkDate 2024 2 29)).
Proof.
  assert (H : 0 <= 9 * 3600000 < Js.msPerDay) by (unfold Js.msPerDay; lia).
  split.
  - exact H.
  - exact (proj1 (initial_date_is_utc_date (9 * 3600000)
                    (Js.Date_of_iso (mkDate 2024 2 29)) H)).
Defined.

(** ** The order of the rows does not matter *)

Lemma sorted_perm_eq {A : Type} (R : A -> A -> Prop) (l l' : list A) :
  (forall a b, In a l -> In b l -> R a b -> R b a -> a = b) ->
  StronglySorted R l -> StronglySorted R l' -> Permutation l l' -> l = l'.
Proof.
  revert l'. induction l as [|a l IH]; intros l' Hanti Hs Hs' Hp.
  - apply Permutation_nil in Hp. now subst.
  - destruct l' as [|b l'].
    { apply Permutation_sym, Permutation_nil in Hp. discriminate. }
    inversion Hs as [|? ? Hs1 Ha]; subst.
    inversion Hs' as [|? ? Hs1' Hb]; subst.
    rewrite Forall_forall in Ha, Hb.
    assert (E : a = b).
    { assert (Hina : In a (b :: l')).
      { eapply Permutation_in; [exact Hp|now left]. }
      assert (Hinb : In b (a :: l)).
      { eapply Permutation_in; [symmetry; exact Hp|now left]. }
      destruct Hina as [E|Hina]; [now symmetry|].
      destruct Hinb as [E|Hinb]; [exact E|].
      apply Hanti; [now left|now right|now apply Ha|now apply Hb]. }
    subst b. f_equal. apply IH.
    + intros x y Hx Hy. apply Hanti; now right.
    + exact Hs1.
    + exact Hs1'.
    + now apply Permutation_cons_inv in Hp.
Qed.

Lemma get_Some_In {V : Type} (k : string) (v : V) (o : Js.Obj V) :
  Js.get k o = Some v -> In (k, v) o.
Proof.
  induction o as [|[k' v'] o IH]; simpl; [discriminate|].
  destruct (String.eqb_spec k k') as [->|Hne].
  - intros H. injection H as ->. now left.
  - intros H. right. now apply IH.
Qed.

Lemma NoDup_keys_pairs {V : Type} (o : Js.Obj V) : NoDup (keys o) -> NoDup o.
Proof. apply NoDup_map_inv. Qed.

(** Two dictionaries with the same lookups hold the same entries. *)
Lemma same_lookups_perm {V : Type} (o o' : Js.Obj V) :
  NoDup (keys o) -> NoDup (keys o') ->
  (forall k, Js.get k o = Js.get k o') -> Permutation o o'.
Proof.
  intros Hnd Hnd' Hget. apply NoDup_Permutation.
  - now apply NoDup_keys_pairs.
  - now apply NoDup_keys_pairs.
  - intros [k v]. split; intros H.
    + apply get_Some_In. rewrite <- Hget. now apply get_In.
    + apply get_Some_In. rewrite Hget. now apply get_In.
Qed.

Lemma sum_list_map_perm {A : Type} (f : A -> Z) (l l' : list A) :
  Permutation l l' -> sum_list (map f l) = sum_list (map f l').
Proof. intros H. apply sum_perm. now apply Permutation_map. Qed.

Lemma add_expense_of_sum (c : string) (l : list Transaction) (a : Z) :
  fold_left (add_expense_of c) l a
  = a + sum_list (map (add_expense_of c 0) l).
Proof.
  revert a. induction l as [|t l IH]; intros a; simpl.
  - lia.
  - rewrite IH. unfold add_expense_of.
    destruct (type t); [|destruct (String.eqb (category t) c)]; lia.
Qed.

Lemma category_expense_sum_perm (c : string) (l l' : list Transaction) :
  Permutation l l' -> category_expense_sum c l = category_expense_sum c l'.
Proof.
  intros Hp. unfold category_expense_sum. rewrite !add_expense_of_sum.
  now rewrite (sum_list_map_perm _ l l' Hp).
Qed.

Lemma month_sums_perm (tza : Z) (k : string) (l l' : list Transaction) :
  Permutation l l' ->
  month_income tza k l = month_income tza k l'
  /\ month_expense tza k l = month_expense tza k l'.
Proof.
  induction 1 as [|t l l' _ [IHi IHe]|t u l|l l' l'' _ [? ?] _ [? ?]];
    cbn [month_income month_expense].
  - split; reflexivity.
  - rewrite IHi, IHe. split; reflexivity.
  - destruct (String.eqb (Analytics.monthKey tza t) k),
      (String.eqb (Analytics.monthKey tza u) k); split; lia.
  - split; congruence.
Qed.

Lemma number_sums_get (c : string) (l : list Transaction) :
  Js.get c (number_sums l)
  = if in_dec string_dec c (keys (number_sums l))
    then Some (category_expense_sum c l)
    else None.
Proof.
  destruct (in_dec _ _ _) as [Hin|Hnotin].
  - pose proof (number_sums_loop_get c l []) as H.
    fold (number_sums l) in H. cbn [Js.get Js.or0] in H.
    fold (category_expense_sum c l) in H.
    destruct (Js.get c _) as [v|] eqn:E.
    + cbn in H. now subst.
    + apply get_None in E. contradiction.
  - now apply get_None.
Qed.

Lemma number_sums_perm (l l' : list Transaction) :
  Permutation l l' -> Permutation (number_sums l) (number_sums l').
Proof.
  intros Hp.
  assert (Hk : forall c,
             In c (keys (number_sums l)) <-> In c (keys (number_sums l'))).
  { intros c. unfold number_sums. rewrite !number_sums_loop_keys.
    split; intros [H|(t & Hin & Ht)]; try tauto; right; exists t;
      (split; [|exact Ht]).
    - now apply (Permutation_in _ Hp).
    - now apply (Permutation_in _ (Permutation_sym Hp)). }
  apply same_lookups_perm.
  - apply number_sums_loop_NoDup. constructor.
  - apply number_sums_loop_NoDup. constructor.
  - intros c. rewrite !number_sums_get.
    rewrite (category_expense_sum_perm c l l' Hp).
    destruct (in_dec _ _ _) as [H|H], (in_dec _ _ _) as [H'|H'];
      try reflexivity; apply Hk in H || apply Hk in H'; contradiction.
Qed.

Lemma ordinary_categories_perm (l l' : list Transaction) :
  Permutation l l' -> ordinary_categories l -> ordinary_categories l'.
Proof.
  intros Hp Hord t Hin. apply Hord.
  now apply (Permutation_in _ (Permutation_sym Hp)).
Qed.

Lemma monthlyMap_get (tza : Z) (k : string) (l : list Transaction) :
  Js.get k (Analytics.monthlyMap tza l)
  = if in_dec string_dec k (keys (Analytics.monthlyMap tza l))
    then Some (Analytics.mkMonthSums (month_income tza k l)
                 (month_expense tza k l))
    else None.
Proof.
  destruct (in_dec _ _ _) as [Hin|Hnotin].
  - destruct (monthly_loop_sums tza l [] k) as [Hi He].
    fold (Analytics.monthlyMap tza l) in Hi, He. unfold sums_at in Hi, He.
    destruct (Js.get k (Analytics.monthlyMap tza l)) as [[i e]|] eqn:E.
    + cbn in Hi, He. now subst.
    + apply get_None in E. contradiction.
  - now apply get_None.
Qed.

Lemma monthlyMap_perm (tza : Z) (l l' : list Transaction) :
  Permutation l l' ->
  Permutation (Analytics.monthlyMap tza l) (Analytics.monthlyMap tza l').
Proof.
  intros Hp.
  assert (Hk : forall k,
             In k (keys (Analytics.monthlyMap tza l))
             <-> In k (keys (Analytics.monthlyMap tza l'))).
  { intros k. unfold Analytics.monthlyMap. rewrite !monthly_loop_keys.
    split; intros [H|(t & Hin & Ht)]; try tauto; right; exists t;
      (split; [|exact Ht]).
    - now apply (Permutation_in _ Hp).
    - now apply (Permutation_in _ (Permutation_sym Hp)). }
  apply same_lookups_perm.
  - apply monthly_loop_NoDup. constructor.
  - apply monthly_loop_NoDup. constructor.
  - intros k. rewrite !monthlyMap_get.
    destruct (month_sums_perm tza k l l' Hp) as [-> ->].
    destruct (in_dec _ _ _) as [H|H], (in_dec _ _ _) as [H'|H'];
      try reflexivity; apply Hk in H || apply Hk in H'; contradiction.
Qed.

Lemma sorted_months_perm (tza : Z) (l l' : list Transaction) :
  Permutation l l' ->
  Permutation (sorted_months tza l) (sorted_months tza l').
Proof.
  intros Hp. unfold sorted_months. rewrite !sort_perm.
  apply Permutation_map. rewrite !entries_perm. now apply monthlyMap_perm.
Qed.

(** In years of four digits no two entries of the series share a label. *)
Lemma sorted_months_labels_NoDup (tza : Z) (l : list Transaction) :
  (forall t, In t l ->
             1000 <= Js.getFullYear tza (Js.Date_of_iso (date t)) <= 9999) ->
  NoDup (map Analytics.month (sorted_months tza l)).
Proof.
  intros Hy.
  eapply Permutation_NoDup;
    [symmetry; apply (sorted_months_labels tza l)|].
  apply NoDup_map_NoDup_ForallPairs.
  - intros a b Ha Hb E.
    apply monthlyMap_keys in Ha, Hb.
    destruct Ha as (ta & Hta & <-). destruct Hb as (tb & Htb & <-).
    destruct (local_ym_present tza l Hy ta Hta) as (Hya & Hma & _).
    destruct (local_ym_present tza l Hy tb Htb) as (Hyb & Hmb & _).
    f_equal. now apply ym_label_inj.
  - apply monthly_loop_NoDup. constructor.
Qed.

Lemma NoDup_map_eq {A B : Type} (f : A -> B) (l : list A) (a b : A) :
  NoDup (map f l) -> In a l -> In b l -> f a = f b -> a = b.
Proof.
  induction l as [|x l IH]; simpl; [tauto|].
  intros Hnd Ha Hb E. inversion Hnd as [|? ? Hnotin Hnd']; subst.
  destruct Ha as [->|Ha], Hb as [->|Hb].
  - reflexivity.
  - exfalso. apply Hnotin. rewrite E. now apply in_map.
  - exfalso. apply Hnotin. rewrite <- E. now apply in_map.
  - now apply IH.
Qed.

(** The store may return the rows in any order.  When the labels of the
    expenses are ordinary ones and the amounts are integers that the doubles
    of the source add exactly, the totals and the values of the category
    totals come out the same (and the totals themselves, up to the order of
    equal values), and so does the monthly series when the transactions
    fall in years of four digits. *)
Theorem analytics_order_independent (tza : Z) (l l' : list Transaction) :
  Permutation l l' ->
  ordinary_categories l ->
  exact_amounts l ->
  let s := Analytics.processData tza l in
  let s' := Analytics.processData tza l' in
  Analytics.totalIncome s = Analytics.totalIncome s'
  /\ Analytics.totalExpense s = Analytics.totalExpense s'
  /\ Permutation (Analytics.categoryData s) (Analytics.categoryData s')
  /\ map Analytics.value (Analytics.categoryData s)
     = map Analytics.value (Analytics.categoryData s')
  /\ ((forall t, In t l ->
                 1000 <= Js.getFullYear tza (Js.Date_of_iso (date t))
                 <= 9999) ->
      Analytics.monthlyData s = Analytics.monthlyData s').
Proof.
  intros Hp Hord _ s s'. subst s s'.
  cbn [Analytics.processData Analytics.totalIncome Analytics.totalExpense
         Analytics.categoryData Analytics.monthlyData].
  rewrite (categoryArray_numbers l Hord).
  rewrite (categoryArray_numbers l' (ordinary_categories_perm l l' Hp Hord)).
  assert (Hcat : Permutation (sorted_number_sums l) (sorted_number_sums l')).
  { rewrite !sorted_number_sums_perm. now apply number_sums_perm. }
  split; [|split; [|split; [|split]]].
  - unfold Analytics.totals. rewrite !totals_loop_income.
    now rewrite (sum_list_map_perm income_amount l l' Hp).
  - unfold Analytics.totals. rewrite !totals_loop_expense.
    now rewrite (sum_list_map_perm expense_amount l l' Hp).
  - now apply Permutation_map.
  - rewrite !map_map. cbn [category_entry Analytics.value].
    rewrite <- !(map_map snd Js.Num). f_equal.
    apply (sorted_perm_eq (fun a b => a >= b)).
    + intros a b _ _. lia.
    + apply StronglySorted_map_inv. apply sorted_number_sums_sorted.
    + apply StronglySorted_map_inv. apply sorted_number_sums_sorted.
    + now apply Permutation_map.
  - intros Hy.
    change (Analytics.monthlyArray tza l)
      with (Js.slice_last 6 (sorted_months tza l)).
    change (Analytics.monthlyArray tza l')
      with (Js.slice_last 6 (sorted_months tza l')).
    f_equal.
    pose proof (sorted_months_labels_NoDup tza l Hy) as Hnd.
    apply (sorted_perm_eq
             (cmp_le (fun a b => Js.localeCompare (Analytics.month a)
                                   (Analytics.month b)))).
    + intros a b Ha Hb Hab Hba. unfold cmp_le in Hab, Hba.
      apply (NoDup_map_eq Analytics.month (sorted_months tza l));
        try assumption.
      apply String.compare_eq_iff.
      unfold Js.localeCompare in Hab, Hba.
      rewrite (String.compare_antisym (Analytics.month b)) in Hba.
      destruct (String.compare (Analytics.month a) (Analytics.month b));
        cbn in Hab, Hba; try reflexivity; lia.
    + apply sort_sorted.
      * intros a b. unfold cmp_le. rewrite !localeCompare_le.
        apply str_le_total.
      * intros a b c. unfold cmp_le. rewrite !localeCompare_le.
        apply str_le_trans.
    + apply sort_sorted.
      * intros a b. unfold cmp_le. rewrite !localeCompare_le.
        apply str_le_total.
      * intros a b c. unfold cmp_le. rewrite !localeCompare_le.
        apply str_le_trans.
    + now apply sorted_months_perm.
Qed.

Lemma analytics_order_independent_example :
  (Permutation example_transactions (rev example_transactions)
   /\ ordinary_categories example_transactions
   /\ exact_amounts example_transactions)
  /\ Analytics.totalIncome (Analytics.processData 0 example_transactions)
     = Analytics.totalIncome
         (Analytics.processData 0 (rev example_transactions)).
Proof.
  assert (H : Permutation example_transactions (rev example_transactions)).
  { apply Permutation_rev. }
  assert (Hord : ordinary_categories example_transactions).
  { intros t [<-|[<-|[<-|[]]]] _; reflexivity. }
  assert (Hx : exact_amounts example_transactions).
  { unfold exact_amounts. vm_compute. discriminate. }
  split; [split; [exact H|split; [exact Hord|exact Hx]]|].
  exact (proj1 (analytics_order_independent 0 example_transactions
                  (rev example_transactions) H Hord Hx)).
Defined.

(** ** Adding, then looking, then deleting *)

Lemma filter_fresh_id (new_id : string) (l : list Transaction) :
  (forall t, In t l -> tx_id t <> new_id) ->
  filter (fun t => negb (Supabase.eq_tx_id new_id t)) l = l.
Proof.
  intros H. apply forallb_filter_id, forallb_forall. intros t Ht.
  apply negb_true_iff, String.eqb_neq. now apply H.
Qed.

Lemma handleSubmit_accepted (parseFloat : string -> option Z)
  (new_id : string) (transactionError : option string) (form : AddPage.Form)
  (st : Store) :
  let r := AddPage.handleSubmit parseFloat new_id transactionError form st in
  (AddPage.error (snd r) <> None /\ fst r = st)
  \/ (AddPage.error (snd r) = None
      /\ exists a,
          parseFloat (AddPage.f_amount form) = Some a
          /\ transactions (fst r)
             = transactions st
               ++ [mkTransaction new_id (AddPage.f_type form) (Some a)
                     (AddPage.f_category form)
                     (if String.eqb (AddPage.f_memo form) "" then None
                      else Some (AddPage.f_memo form))
                     (AddPage.f_date form)]).
Proof.
  intros r. subst r. unfold AddPage.handleSubmit.
  destruct (_ || _); [left; cbn; split; [discriminate|reflexivity]|].
  destruct (parseFloat (AddPage.f_amount form)) as [a|];
    [|left; cbn; split; [discriminate|reflexivity]].
  destruct (a <=? 0); [left; cbn; split; [discriminate|reflexivity]|].
  destruct transactionError as [msg|];
    [left; cbn; split; [discriminate|reflexivity]|].
  right. cbn [fst snd AddPage.error]. split; [reflexivity|].
  exists a. split; [reflexivity|].
  destruct (AddPage.f_type form); [|reflexivity].
  destruct (Supabase.single _); reflexivity.
Qed.

Lemma handleSubmit_goals_frame (parseFloat : string -> option Z)
  (new_id : string) (transactionError : option string) (form : AddPage.Form)
  (st : Store) :
  (forall g, In g (goals st) -> id g <> "undefined"%string) ->
  goals (fst (AddPage.handleSubmit parseFloat new_id transactionError form st))
  = goals st.
Proof.
  intros Hid. unfold AddPage.handleSubmit.
  destruct (_ || _); [reflexivity|].
  destruct (parseFloat _) as [amountNum|]; [|reflexivity].
  destruct (amountNum <=? 0); [reflexivity|].
  destruct transactionError; [reflexivity|].
  destruct (AddPage.f_type form); [|reflexivity].
  cbn [fst]. set (st1 := Supabase.insert_transaction _ st).
  change (goals st) with (goals st1) in *.
  destruct (Supabase.single _) as [goalData|code] eqn:E; [|reflexivity].
  apply single_limit1_map in E. destruct E as (g & _ & ->).
  apply update_goals_no_match. intros g' Hg'.
  apply String.eqb_neq. now apply Hid.
Qed.

(** Deleting the transaction that a submission has just stored (under an id
    no other transaction has) gives back the store as it was before the
    submission. *)
Theorem add_then_delete (parseFloat : string -> option Z) (new_id : string)
  (transactionError : option string) (form : AddPage.Form) (st : Store) :
  (forall t, In t (transactions st) -> tx_id t <> new_id) ->
  (forall g, In g (goals st) -> id g <> "undefined"%string) ->
  Home.deleteTransaction true new_id
    (fst (AddPage.handleSubmit parseFloat new_id transactionError form st))
  = st.
Proof.
  intros Hfresh Hid.
  pose proof (handleSubmit_goals_frame parseFloat new_id transactionError
                form st Hid) as Hgoals.
  pose proof (handleSubmit_accepted parseFloat new_id transactionError form
                st) as Hcases.
  cbv zeta in Hcases.
  set (r := AddPage.handleSubmit parseFloat new_id transactionError form st)
    in *.
  unfold Home.deleteTransaction, Supabase.delete_transactions. cbn [negb].
  rewrite Hgoals.
  destruct Hcases as [[_ ->]|(_ & a & _ & ->)].
  - rewrite filter_fresh_id by exact Hfresh. now destruct st.
  - rewrite filter_app, filter_fresh_id by exact Hfresh.
    cbn [filter]. unfold Supabase.eq_tx_id. cbn [tx_id].
    rewrite String.eqb_refl. cbn [negb]. rewrite app_nil_r. now destruct st.
Qed.

Lemma add_then_delete_example :
  ((forall t, In t (transactions one_goal) -> tx_id t <> "tx-1"%string)
   /\ forall g, In g (goals one_goal) -> id g <> "undefined"%string)
  /\ Home.deleteTransaction true "tx-1"
       (fst (AddPage.handleSubmit parse_numeral "tx-1" None income_form
               one_goal))
     = one_goal.
Proof.
  assert (Hf : forall t, In t (transactions one_goal) ->
                         tx_id t <> "tx-1"%string).
  { intros t []. }
  assert (Hg : forall g, In g (goals one_goal) -> id g <> "undefined"%string).
  { intros g [<-|[]]. discriminate. }
  split; [split; [exact Hf|exact Hg]|].
  exact (add_then_delete parse_numeral "tx-1" None income_form one_goal Hf Hg).
Defined.

Lemma totals_snoc (l : list Transaction) (t : Transaction) :
  Analytics.totals (l ++ [t])
  = Analytics.totals_step (Analytics.totals l) t.
Proof. unfold Analytics.totals. now rewrite fold_left_app. Qed.

Lemma assign_other (k k0 : string) (v : Js.Value) (o : Js.Obj Js.Value) :
  k0 <> k -> Js.get k0 (Js.assign k v o) = Js.get k0 o.
Proof.
  intros Hne. unfold Js.assign.
  destruct (String.eqb k "__proto__"); [reflexivity|].
  now apply get_set_other.
Qed.

Lemma totals_step_number_or_absent (k : string) (acc : Analytics.Totals)
  (t : Transaction) :
  Js.inherited k = None ->
  number_or_absent k (Analytics.expenseByCategory acc) ->
  number_or_absent k
    (Analytics.expenseByCategory (Analytics.totals_step acc t)).
Proof.
  intros Hk H. unfold Analytics.totals_step.
  destruct (type t); cbn [Analytics.expenseByCategory]; [exact H|].
  destruct (String.eqb_spec (category t) k) as [->|Hne].
  - right. unfold Js.assign. rewrite (ordinary_not_proto k Hk).
    rewrite get_set_same. unfold Js.lookup. rewrite Hk.
    destruct H as [->|(n & ->)]; cbn; eauto.
  - unfold number_or_absent. rewrite assign_other by congruence. exact H.
Qed.

Lemma totals_number_or_absent (k : string) (l : list Transaction) :
  Js.inherited k = None ->
  number_or_absent k (Analytics.expenseByCategory (Analytics.totals l)).
Proof.
  intros Hk. unfold Analytics.totals.
  assert (H0 : number_or_absent k
                 (Analytics.expenseByCategory (Analytics.mkTotals 0 0 []))).
  { left. reflexivity. }
  revert H0. generalize (Analytics.mkTotals 0 0 []).
  induction l as [|t l IH]; intros acc H; cbn [fold_left].
  - exact H.
  - apply IH. now apply totals_step_number_or_absent.
Qed.

(** After a stored submission of amount [a], the analytics over all
    transactions show [a] more income if it was an income, and otherwise
    [a] more expense, in total and under the submitted category (what was
    held there, with [a] added; for an ordinary label that is a number). *)
Theorem add_then_analytics (parseFloat : string -> option Z)
  (new_id : string) (transactionError : option string) (form : AddPage.Form)
  (st : Store) (zone : Js.Zone) (now : Z) :
  let r := AddPage.handleSubmit parseFloat new_id transactionError form st in
  let before :=
    Analytics.totals (AnalyticsPage.query AnalyticsPage.all zone now st) in
  let after :=
    Analytics.totals
      (AnalyticsPage.query AnalyticsPage.all zone now (fst r)) in
  AddPage.error (snd r) = None ->
  exists a,
    parseFloat (AddPage.f_amount form) = Some a
    /\ match AddPage.f_type form with
       | income =>
           Analytics.t_income after = Analytics.t_income before + a
           /\ Analytics.t_expense after = Analytics.t_expense before
           /\ Analytics.expenseByCategory after
              = Analytics.expenseByCategory before
       | expense =>
           Analytics.t_income after = Analytics.t_income before
           /\ Analytics.t_expense after = Analytics.t_expense before + a
           /\ (AddPage.f_category form <> "__proto__"%string ->
               Js.get (AddPage.f_category form)
                 (Analytics.expenseByCategory after)
               = Some
                   (Js.plus
                      (Js.or_zero
                         (Js.lookup (AddPage.f_category form)
                            (Analytics.expenseByCategory before)))
                      a))
           /\ (Js.inherited (AddPage.f_category form) = None ->
               Js.get (AddPage.f_category form)
                 (Analytics.expenseByCategory after)
               = Some
                   (Js.Num
                      (number_at (AddPage.f_category form)
                         (Analytics.expenseByCategory before)
                       + a)))
       end.
Proof.
  intros r before after Hok.
  destruct (handleSubmit_accepted parseFloat new_id transactionError form st)
    as [[Herr _]|(_ & a & Hparse & Htx)]; [contradiction|].
  exists a. split; [exact Hparse|].
  subst after r. unfold AnalyticsPage.query in *. rewrite Htx.
  rewrite totals_snoc. fold before.
  unfold Analytics.totals_step. cbn [type amount category].
  destruct (AddPage.f_type form);
    cbn [Analytics.t_income Analytics.t_expense Analytics.expenseByCategory
           Js.or0];
    repeat split.
  { intros Hne. unfold Js.assign.
    destruct (String.eqb_spec (AddPage.f_category form) "__proto__");
      [contradiction|].
    apply get_set_same. }
  intros Hord. unfold Js.assign.
  rewrite (ordinary_not_proto _ Hord), get_set_same.
  unfold Js.lookup, number_at. rewrite Hord.
  destruct (totals_number_or_absent (AddPage.f_category form)
              (transactions st) Hord) as [E|(n & E)];
    unfold before; rewrite E; reflexivity.
Qed.

Lemma add_then_analytics_example :
  AddPage.error
    (snd (AddPage.handleSubmit parse_numeral "tx-1" None income_form one_goal))
  = None
  /\ exists a,
      parse_numeral (AddPage.f_amount income_form) = Some a
      /\ Analytics.t_income
           (Analytics.totals
              (AnalyticsPage.query AnalyticsPage.all (fixed_zone 0) 0
                 (fst (AddPage.handleSubmit parse_numeral "tx-1" None
                         income_form one_goal))))
         = Analytics.t_income
             (Analytics.totals
                (AnalyticsPage.query AnalyticsPage.all (fixed_zone 0) 0
                   one_goal))
           + a.
Proof.
  assert (H : AddPage.error
                (snd (AddPage.handleSubmit parse_numeral "tx-1" None
                        income_form one_goal))
              = None) by reflexivity.
  split; [exact H|].
  destruct (add_then_analytics parse_numeral "tx-1" None income_form one_goal
              (fixed_zone 0) 0 H) as (a & Hp & Hi & _).
  exists a. split; [exact Hp|exact Hi].
Defined.

(** ** The month a transaction is counted in *)

(** Case analysis on the comparisons of the goal, closing by arithmetic
    the cases that cannot be. *)
Ltac case_bounds :=
  repeat match goal with
         | |- context [if ?a <=? ?b then _ else _] =>
             destruct (Z.leb_spec a b); try lia
         | |- context [if ?a =? ?b then _ else _] =>
             destruct (Z.eqb_spec a b); try lia
         | |- context [if ?a <? ?b then _ else _] =>
             destruct (Z.ltb_spec a b); try lia
         end.

Lemma leap_DaysInYear (y : Z) :
  0 <= Js.InLeapYear_of_year y <= 1
  /\ Js.DaysInYear y = 365 + Js.InLeapYear_of_year y.
Proof.
  unfold Js.InLeapYear_of_year. pose proof (DaysInYear_pos y).
  destruct (Z.eqb_spec (Js.DaysInYear y) 366); lia.
Qed.

(** A day between the start of month [m] of year [y] and the start of the
    next month lies in that year and month. *)
Lemma year_month_of_day (y m t : Z) :
  0 <= m <= 11 ->
  Js.DayFromYear y + year_days_before y m <= Js.Day t
  < Js.DayFromYear y + year_days_before y (m + 1) ->
  Js.YearFromTime t = y /\ Js.MonthFromTime t = m.
Proof.
  intros Hm H. destruct (leap_DaysInYear y) as [Hl Hd].
  assert (Hy : Js.YearFromTime t = y).
  { unfold Js.YearFromTime. apply year_of_day_unique.
    rewrite DayFromYear_succ.
    unfold year_days_before, Js.days_before_month in H.
    revert H.
    case_bounds. }
  split; [exact Hy|].
  unfold Js.MonthFromTime, Js.DayWithinYear. rewrite Hy.
  unfold year_days_before, Js.days_before_month in H.
  revert H. case_bounds; intros Hrange; case_bounds.
Qed.

(** East of Greenwich (and at it) a transaction is counted in the month of
    its date. West of it, it is counted in the month of the day before its
    date: one dated the first of a month goes to the month before, and one
    dated the first of January to December of the year before. *)
Theorem transaction_month_by_zone (tza y m d : Z) (t : Transaction) :
  date t = mkDate y m d ->
  1 <= m <= 12 -> 1 <= d <= 28 ->
  (0 <= tza < Js.msPerDay -> local_ym tza t = (y, m - 1))
  /\ (- Js.msPerDay <= tza < 0 ->
      local_ym tza t
      = if 2 <=? d then (y, m - 1)
        else if m =? 1 then (y - 1, 11)
        else (y, m - 2)).
Proof.
  intros Hdate Hm Hd. unfold local_ym, Js.getFullYear, Js.getMonth.
  rewrite Hdate. pose proof msPerDay_pos as Hpos.
  destruct (leap_DaysInYear y) as [Hl Hdy].
  set (D := Js.MakeDay y (m - 1) d).
  assert (HT : Js.Date_of_iso (mkDate y m d) = D * Js.msPerDay) by reflexivity.
  rewrite HT.
  assert (HD : D = Js.DayFromYear y
                   + Js.days_before_month (Js.InLeapYear_of_year y) (m - 1)
                   + d - 1) by reflexivity.
  split; intros Htza.
  - assert (E : Js.Day (Js.LocalTime tza (D * Js.msPerDay)) = D).
    { unfold Js.LocalTime, Js.Day. symmetry.
      apply Z.div_unique with tza; lia. }
    destruct (year_month_of_day y (m - 1)
                (Js.LocalTime tza (D * Js.msPerDay))) as [-> ->];
      [lia| |reflexivity].
    rewrite E, HD. unfold year_days_before, Js.days_before_month.
    case_bounds.
  - assert (E : Js.Day (Js.LocalTime tza (D * Js.msPerDay)) = D - 1).
    { unfold Js.LocalTime, Js.Day. symmetry.
      apply Z.div_unique with (tza + Js.msPerDay); lia. }
    destruct (Z.leb_spec 2 d) as [Hd2|Hd1].
    + destruct (year_month_of_day y (m - 1)
                  (Js.LocalTime tza (D * Js.msPerDay))) as [-> ->];
        [lia| |reflexivity].
      rewrite E, HD. unfold year_days_before, Js.days_before_month.
      case_bounds.
    + destruct (Z.eqb_spec m 1) as [Hm1|Hm1].
      * destruct (leap_DaysInYear (y - 1)) as [Hl' Hdy'].
        pose proof (DayFromYear_succ (y - 1)) as Hs.
        replace (y - 1 + 1) with y in Hs by lia.
        destruct (year_month_of_day (y - 1) 11
                    (Js.LocalTime tza (D * Js.msPerDay))) as [-> ->];
          [lia| |reflexivity].
        rewrite E, HD. unfold year_days_before, Js.days_before_month.
        case_bounds.
      * destruct (year_month_of_day y (m - 2)
                    (Js.LocalTime tza (D * Js.msPerDay))) as [-> ->];
          [lia| |reflexivity].
        rewrite E, HD. unfold year_days_before, Js.days_before_month.
        case_bounds.
Qed.

Lemma transaction_month_by_zone_example :
  (date february_first = mkDate 2024 2 1 /\ 1 <= 2 <= 12 /\ 1 <= 1 <= 28
   /\ - Js.msPerDay <= - 5 * 3600000 < 0)
  /\ local_ym (- 5 * 3600000) february_first = (2024, 0).
Proof.
  assert (Hm : 1 <= 2 <= 12) by lia.
  assert (Hd : 1 <= 1 <= 28) by lia.
  assert (Hz : - Js.msPerDay <= - 5 * 3600000 < 0)
    by (unfold Js.msPerDay; lia).
  split; [split; [reflexivity|split; [exact Hm|split; [exact Hd|exact Hz]]]|].
  exact (proj2 (transaction_month_by_zone (- 5 * 3600000) 2024 2 1
                  february_first eq_refl Hm Hd) Hz).
Defined.

(** ** Any sequence of actions *)

Lemma kept_or_reset_refl (l : list Goal) : Forall2 kept_or_reset l l.
Proof.
  induction l; constructor; [|assumption]. split; [reflexivity|now left].
Qed.

Lemma kept_or_reset_trans (l1 l2 l3 : list Goal) :
  Forall2 kept_or_reset l1 l2 -> Forall2 kept_or_reset l2 l3 ->
  Forall2 kept_or_reset l1 l3.
Proof.
  intros H. revert l3. induction H as [|a b l1 l2 [Hid Hc] _ IH]; intros l3 H'.
  - inversion H'. constructor.
  - inversion H' as [|? c ? l3' [Hid' Hc'] Hrest]; subst.
    constructor; [|now apply IH].
    split; [congruence|]. destruct Hc' as [E|E]; [|now right].
    rewrite E. exact Hc.
Qed.

Lemma kept_or_reset_map (f : Goal -> Goal) (l : list Goal) :
  (forall g, kept_or_reset g (f g)) -> Forall2 kept_or_reset l (map f l).
Proof.
  intros Hf. induction l; cbn; constructor; auto.
Qed.

Lemma fetch_keeps_goals (st : Store) (g : Goal) (gs : list Goal) :
  goals st = g :: gs ->
  (forall new_id ui, fst (SettingsPage.fetchGoal new_id st ui) = st)
  /\ (forall new_id ui, fst (Home.fetchGoal new_id st ui) = st).
Proof.
  intros Hg. split; intros new_id ui.
  - unfold SettingsPage.fetchGoal. now rewrite Hg.
  - unfold Home.fetchGoal. now rewrite Hg.
Qed.

Lemma act_kept_or_reset (parseFloat : string -> option Z) (st : Store)
  (a : Action) :
  goals st <> [] ->
  (forall g, In g (goals st) -> id g <> "undefined"%string) ->
  Forall2 kept_or_reset (goals st) (goals (act parseFloat st a)).
Proof.
  intros Hne Hid.
  destruct (goals st) as [|g0 gs] eqn:Hg; [contradiction|]. rewrite <- Hg.
  destruct (fetch_keeps_goals st g0 gs Hg) as [Hfs Hfh].
  destruct a as [new_id err form|err ui|confirmed new_id ui|new_id ui
                |new_id ui|confirmed id0]; cbn [act].
  - rewrite handleSubmit_goals_frame; [apply kept_or_reset_refl|].
    now rewrite Hg.
  - unfold SettingsPage.handleSubmit.
    destruct (parseFloat _) as [a|]; [|apply kept_or_reset_refl].
    destruct (a <=? 0); [apply kept_or_reset_refl|].
    destruct (match SettingsPage.targetDate ui with
              | Some d => negb (SettingsPage.valid_date d)
              | None => false
              end); [apply kept_or_reset_refl|].
    destruct (SettingsPage.goal ui); [|apply kept_or_reset_refl].
    destruct err; [apply kept_or_reset_refl|].
    cbn [fst Supabase.update_goals goals]. apply kept_or_reset_map.
    intros g'. destruct (Supabase.eq_id _ g'); split; auto.
  - unfold SettingsPage.resetCurrentAmount.
    destruct confirmed; cbn [negb]; [|apply kept_or_reset_refl].
    destruct (SettingsPage.goal ui) as [g|]; [|apply kept_or_reset_refl].
    set (st' := Supabase.update_goals _ _ st).
    assert (Hst' : Forall2 kept_or_reset (goals st) (goals st')).
    { unfold st'. cbn [Supabase.update_goals goals]. apply kept_or_reset_map.
      intros g'. destruct (Supabase.eq_id _ g'); split; auto. }
    destruct (goals st') as [|g1 gs1] eqn:Hg'.
    { rewrite Hg in Hst'. inversion Hst'. }
    destruct (fetch_keeps_goals st' g1 gs1 Hg') as [Hfs' _].
    rewrite Hfs', Hg'. exact Hst'.
  - rewrite Hfs. apply kept_or_reset_refl.
  - rewrite Hfh. apply kept_or_reset_refl.
  - unfold Home.deleteTransaction.
    destruct confirmed; cbn [negb]; apply kept_or_reset_refl.
Qed.

Lemma kept_or_reset_ids (l l' : list Goal) :
  Forall2 kept_or_reset l l' -> map id l' = map id l.
Proof.
  induction 1 as [|g g' l l' [Hid _] _ IH]; cbn; [reflexivity|].
  now rewrite Hid, IH.
Qed.

(** Once a goal exists (and none carries the id ["undefined"]), no sequence
    of actions on the three pages adds, removes or renames a goal, and
    none raises the amount saved: each goal's amount is what it was at the
    start, or 0 after a reset. Recording incomes never shows in it. *)
Theorem saved_amount_never_grows (parseFloat : string -> option Z)
  (actions : list Action) (st : Store) :
  goals st <> [] ->
  (forall g, In g (goals st) -> id g <> "undefined"%string) ->
  Forall2 kept_or_reset (goals st)
    (goals (fold_left (act parseFloat) actions st)).
Proof.
  revert st. induction actions as [|a actions IH]; intros st Hne Hid.
  - apply kept_or_reset_refl.
  - cbn [fold_left].
    pose proof (act_kept_or_reset parseFloat st a Hne Hid) as Hstep.
    pose proof (kept_or_reset_ids _ _ Hstep) as Hids.
    eapply kept_or_reset_trans; [exact Hstep|]. apply IH.
    + intros E. rewrite E in Hids. destruct (goals st); [now apply Hne|].
      discriminate.
    + intros g Hg E.
      assert (Hin : In (id g) (map id (goals st))).
      { rewrite <- Hids. now apply in_map. }
      apply in_map_iff in Hin. destruct Hin as (g0 & E0 & Hg0).
      apply (Hid g0 Hg0). congruence.
Qed.

Lemma saved_amount_never_grows_example :
  (goals one_goal <> []
   /\ forall g, In g (goals one_goal) -> id g <> "undefined"%string)
  /\ Forall2 kept_or_reset (goals one_goal)
       (goals
          (fold_left (act parse_numeral)
             [add_submit "tx-1" None income_form;
              home_fetch "new" (Home.mkState None 0)]
             one_goal)).
Proof.
  assert (Hne : goals one_goal <> []) by discriminate.
  assert (Hid : forall g, In g (goals one_goal) -> id g <> "undefined"%string).
  { intros g [<-|[]]. discriminate. }
  split; [split; [exact Hne|exact Hid]|].
  exact (saved_amount_never_grows parse_numeral
           [add_submit "tx-1" None income_form;
            home_fetch "new" (Home.mkState None 0)]
           one_goal Hne Hid).
Defined.

(** ** The latest six calendar months *)





